(** * reticule: the config-set persistence and mutation model

    A shallow embedding of [internal/app/commands/config.go]: the three
    commands [config create|update|delete reticule] over an in-memory file
    system, with the YAML codec, the [path] functions and the user's home
    directory left as parameters. *)

From Stdlib Require Import ZArith String Ascii List DecimalString.
From Stdlib.Strings Require Import Byte.
From stdpp Require Import gmap strings list fin_maps.

(** ** Data model (config.go, lines 34-46) *)

(** Modelled from the spec: [coinbasepro.Auth] is declared in
    [pkg/coinbasepro], which is not part of the sources at hand. The spec
    (section 3, Credentials) and the field accesses [cfg.Auth.Key],
    [cfg.Auth.Passphrase], [cfg.Auth.Secret] give its three string fields. *)
Record Auth := mkAuth {
  Key : string;
  Passphrase : string;
  Secret : string;
}.

(** [url.URL] is only ever used through [String()]; a URL is represented by
    the text it prints as. *)
Record URL := mkURL { URL_String : string }.

(** [type reticuleConfig struct]. [Auth] is a pointer in the source
    ([*coinbasepro.Auth]): [None] is the nil pointer. *)
Record reticuleConfig := mkConfig {
  BaseURL : string;
  FeedURL : string;
  cfgAuth : option Auth;
  ServerIP : string;
  ServerPort : Z;
  ServerSecret : string;
}.

(** [type reticuleConfigSet struct]. A Go map value is either nil or a
    reference to a table: [None] is the nil map, [Some m] an allocated map
    (possibly empty). Reading from and deleting in a nil map are allowed,
    assigning into one is a run-time panic. *)
Record reticuleConfigSet := mkConfigSet {
  Current : string;
  Configs : option (gmap string reticuleConfig);
}.

(** The zero value [reticuleConfigSet{}] (also what [var configSet
    reticuleConfigSet] declares). *)
Definition zeroConfigSet : reticuleConfigSet :=
  {| Current := ""; Configs := None |}.

(** [configSet.Configs[name]] with the comma-ok form: a nil map has no key. *)
Definition lookupConfig (name : string) (cs : reticuleConfigSet)
  : option reticuleConfig :=
  match Configs cs with
  | None => None
  | Some m => m !! name
  end.

(** [delete(configSet.Configs, name)]: a no-op on a nil map and on an absent
    key. *)
Definition deleteConfig (name : string) (cs : reticuleConfigSet)
  : reticuleConfigSet :=
  {| Current := Current cs; Configs := delete name <$> Configs cs |}.

Definition setCurrent (name : string) (cs : reticuleConfigSet)
  : reticuleConfigSet :=
  {| Current := name; Configs := Configs cs |}.

(** [configSet.Configs[name] = cfg]: assigning into a nil map panics
    ("assignment to entry in nil map"). *)
Definition assignConfig (name : string) (cfg : reticuleConfig)
    (cs : reticuleConfigSet) : option reticuleConfigSet :=
  match Configs cs with
  | None => None
  | Some m => Some {| Current := Current cs; Configs := Some (<[name := cfg]> m) |}
  end.

(** Field assignments on a [reticuleConfig] value ([cfg.BaseURL = v], ...). *)
Definition with_BaseURL (v : string) (cfg : reticuleConfig) : reticuleConfig :=
  mkConfig v (FeedURL cfg) (cfgAuth cfg) (ServerIP cfg) (ServerPort cfg)
           (ServerSecret cfg).
Definition with_FeedURL (v : string) (cfg : reticuleConfig) : reticuleConfig :=
  mkConfig (BaseURL cfg) v (cfgAuth cfg) (ServerIP cfg) (ServerPort cfg)
           (ServerSecret cfg).
Definition with_Auth (v : option Auth) (cfg : reticuleConfig) : reticuleConfig :=
  mkConfig (BaseURL cfg) (FeedURL cfg) v (ServerIP cfg) (ServerPort cfg)
           (ServerSecret cfg).
Definition with_ServerIP (v : string) (cfg : reticuleConfig) : reticuleConfig :=
  mkConfig (BaseURL cfg) (FeedURL cfg) (cfgAuth cfg) v (ServerPort cfg)
           (ServerSecret cfg).
Definition with_ServerPort (v : Z) (cfg : reticuleConfig) : reticuleConfig :=
  mkConfig (BaseURL cfg) (FeedURL cfg) (cfgAuth cfg) (ServerIP cfg) v
           (ServerSecret cfg).
Definition with_ServerSecret (v : string) (cfg : reticuleConfig)
  : reticuleConfig :=
  mkConfig (BaseURL cfg) (FeedURL cfg) (cfgAuth cfg) (ServerIP cfg)
           (ServerPort cfg) v.

(** Field assignments through the [Auth] pointer ([cfg.Auth.Key = v], ...):
    [None] when the pointer is nil, where Go panics. The [Auth] the pointer
    leads to is shared with the map entry [cfg] was copied from; [Update]
    deletes or overwrites that entry before the map is encoded, so the
    sharing is never observed. *)
Definition set_Auth_Key (v : string) (cfg : reticuleConfig)
  : option reticuleConfig :=
  a ← cfgAuth cfg;
  Some (with_Auth (Some (mkAuth v (Passphrase a) (Secret a))) cfg).
Definition set_Auth_Passphrase (v : string) (cfg : reticuleConfig)
  : option reticuleConfig :=
  a ← cfgAuth cfg;
  Some (with_Auth (Some (mkAuth (Key a) v (Secret a))) cfg).
Definition set_Auth_Secret (v : string) (cfg : reticuleConfig)
  : option reticuleConfig :=
  a ← cfgAuth cfg;
  Some (with_Auth (Some (mkAuth (Key a) (Passphrase a) v)) cfg).

(** Modelled from the spec: [coinbasepro.NewAuth] lives in [pkg/coinbasepro],
    which is not part of the sources at hand. It returns a pointer to a
    fresh [Auth] holding the key, passphrase and secret it is given (spec,
    section 4.2: "Build a new Profile from the supplied fields"). *)
Definition NewAuth (key passphrase secret : string) : option Auth :=
  Some (mkAuth key passphrase secret).

(** ** Command structs (lines 48-59, 123-125, 140-152) *)

(** [createReticuleConfigCmd]. [BaseURL] and [FeedURL] are [*url.URL] with a
    [default=] tag, so the flag parser always hands over a non-nil pointer:
    they are plain [URL]s here. *)
Record createReticuleConfigCmd := mkCreate {
  create_Name : string;
  create_BaseURL : URL;
  create_FeedURL : URL;
  create_Key : string;
  create_Passphrase : string;
  create_Secret : string;
  create_Use : bool;
  create_ServerPort : Z;
  create_BindAddress : string;
  create_ServerAuth : string;
}.

Record deleteReticuleConfigCmd := mkDelete { delete_Name : string }.

(** [updateReticuleConfigCmd]: no defaults, so the URLs may be nil and the
    strings empty, which is how "not supplied" is told. *)
Record updateReticuleConfigCmd := mkUpdate {
  update_Name : string;
  update_BaseURL : option URL;
  update_FeedURL : option URL;
  update_Key : string;
  update_Passphrase : string;
  update_Rename : string;
  update_Secret : string;
  update_Use : bool;
  update_ServerPort : Z;
  update_BindAddress : string;
  update_ServerAuth : string;
}.

(** ** Errors *)

(** One constructor per place where the source makes or passes on an error. *)
Inductive error :=
| ErrNoHome
    (* errors.New("no user home directory defined"), line 205 *)
| ErrNotExist (path : string)
    (* the file system's *PathError for which errors.Is(err, os.ErrNotExist) *)
| ErrConfigFileMissing (path : string)
    (* "config file %q does not exist, create a new config with
       `create config reticule`", line 215 *)
| ErrAlreadyExists (name : string)
    (* "reticule config %q already exists, use `config update reticule` to
       modify an existing config", line 93 *)
| ErrDoesNotExist (name : string)
    (* "reticule config %q does not exists, use `config create reticule` to
       create a new config", line 165 *)
| ErrYaml.
    (* the error of yaml.Unmarshal *)

(** [errors.Is(err, os.ErrNotExist)]. The errors built with [fmt.Errorf]
    above use [%q] only, never [%w], so they wrap nothing. *)
Definition is_ErrNotExist (e : error) : bool :=
  match e with
  | ErrNotExist _ => true
  | _ => false
  end.

(** The taxonomy of the spec (section 7); the source has plain [error]
    values and no such types. *)
Inductive error_class := NotFoundError | ConflictError | FormatError | IOError.

Definition classify (e : error) : error_class :=
  match e with
  | ErrNoHome => IOError
  | ErrNotExist _ => IOError
  | ErrConfigFileMissing _ => NotFoundError
  | ErrAlreadyExists _ => ConflictError
  | ErrDoesNotExist _ => ConflictError
  | ErrYaml => FormatError
  end.

(** What a Go call ends in: a normal return without error, a returned
    error, or a run-time panic (nil dereference). *)
Inductive outcome (A : Type) :=
| Ok (a : A)
| Err (e : error)
| Panic.
Arguments Ok {A} a.
Arguments Err {A} e.
Arguments Panic {A}.

#[global] Instance outcome_ret : MRet outcome := @Ok.
#[global] Instance outcome_bind : MBind outcome := λ A B k o,
  match o with
  | Ok a => k a
  | Err e => Err e
  | Panic => Panic
  end.

(** A Go operation that panics where the model has [None]. *)
Definition or_panic {A} (o : option A) : outcome A :=
  match o with
  | Some a => Ok a
  | None => Panic
  end.

(** ** The file system (afero.Fs) *)

(** An in-memory file system keyed by path: the directories that exist and
    the contents of the regular files. Its operations fail only for a
    missing file or directory (no permissions, no full disk). *)
Record Fs := mkFs {
  dirs : gset string;
  files : gmap string (list byte);
}.

(** An open file: its path and the offset of the next read or write. *)
Record File := mkFile {
  f_path : string;
  f_at : nat;
}.

(** Code that runs against the file system: a state monad over [Fs] whose
    result is an [outcome]. *)
Definition M (A : Type) : Type := Fs → outcome A * Fs.

Definition ret {A} (a : A) : M A := λ fs, (Ok a, fs).
Definition fail {A} (e : error) : M A := λ fs, (Err e, fs).
Definition panic {A} : M A := λ fs, (Panic, fs).
Definition bind {A B} (m : M A) (k : A → M B) : M B :=
  λ fs, match m fs with
        | (Ok a, fs') => k a fs'
        | (Err e, fs') => (Err e, fs')
        | (Panic, fs') => (Panic, fs')
        end.

(** [M] is a monad in stdpp's sense, which gives the [x ← m; k] notation. *)
#[global] Instance M_ret : MRet M := @ret.
#[global] Instance M_bind : MBind M := λ A B k m, bind m k.

(** Code that does not touch the file system. *)
Definition lift {A} (o : outcome A) : M A := λ fs, (o, fs).

(** The two flag sets the source opens files with. *)
Inductive open_flags :=
| O_RDWR_CREATE   (* os.O_RDWR|os.O_CREATE *)
| O_WRONLY_TRUNC. (* os.O_WRONLY|os.O_TRUNC *)

(** Bytes [data] written at offset [off] of a file holding [c]: they replace
    what was there and extend the file when they reach past its end (a gap
    is filled with zero bytes). *)
Definition write_at (off : nat) (data c : list byte) : list byte :=
  take off c ++ replicate (off - length c) "000"%byte
             ++ data ++ drop (off + length data) c.
Arguments write_at : simpl never.

Section Commands.

(** [path.Join] and [path.Dir] of the Go library, and the result of
    [os.UserHomeDir()]: [None] when no home directory is defined. *)
Variable path_Join : list string → string.
Variable path_Dir : string → string.
Variable UserHomeDir : option string.

(** The YAML codec (gopkg.in/yaml.v3): [encode cs] are the bytes
    [yaml.NewEncoder(f).Encode(&cs)] followed by [Close] writes, and
    [decode b] is [yaml.Unmarshal(b, &cs)] into a zero [cs]: [None] on a
    decoding error. *)
Variable encode : reticuleConfigSet → list byte.
Variable decode : list byte → option reticuleConfigSet.

(** *** File-system operations *)

(** [fs.Open(p)]: read-only, the file must exist. *)
Definition Open (p : string) : M (File + error) := λ fs,
  match files fs !! p with
  | Some _ => (Ok (inl (mkFile p 0)), fs)
  | None => (Ok (inr (ErrNotExist p)), fs)
  end.

(** [fs.OpenFile(p, flags, 0755)]. With [O_CREATE] a missing file is
    created empty, which needs its directory; with [O_TRUNC] an existing
    file is emptied. The offset starts at 0. *)
Definition OpenFile (p : string) (fl : open_flags) : M (File + error) := λ fs,
  match files fs !! p, fl with
  | Some _, O_RDWR_CREATE => (Ok (inl (mkFile p 0)), fs)
  | Some _, O_WRONLY_TRUNC =>
      (Ok (inl (mkFile p 0)), mkFs (dirs fs) (<[p := []]> (files fs)))
  | None, O_RDWR_CREATE =>
      if decide (path_Dir p ∈ dirs fs)
      then (Ok (inl (mkFile p 0)), mkFs (dirs fs) (<[p := []]> (files fs)))
      else (Ok (inr (ErrNotExist p)), fs)
  | None, O_WRONLY_TRUNC => (Ok (inr (ErrNotExist p)), fs)
  end.

(** [fs.MkdirAll(d, os.ModePerm)]. Only the directory itself is recorded:
    nothing here looks at its ancestors. *)
Definition MkdirAll (d : string) : M (option error) := λ fs,
  (Ok None, mkFs ({[d]} ∪ dirs fs) (files fs)).

(** [fs.Create(p)]: create or truncate, open for reading and writing. *)
Definition Create (p : string) : M (File + error) := λ fs,
  if decide (path_Dir p ∈ dirs fs)
  then (Ok (inl (mkFile p 0)), mkFs (dirs fs) (<[p := []]> (files fs)))
  else (Ok (inr (ErrNotExist p)), fs).

(** [ioutil.ReadAll(f)]: everything from the offset to the end of the
    file; the offset is left at the end. *)
Definition ReadAll (f : File) : M (list byte * File) := λ fs,
  let c := default [] (files fs !! f_path f) in
  (Ok (drop (f_at f) c, mkFile (f_path f) (f_at f `max` length c)), fs).

(** [f.Write(data)]: at the offset, which moves past the data. *)
Definition Write (f : File) (data : list byte) : M File := λ fs,
  let c := default [] (files fs !! f_path f) in
  (Ok (mkFile (f_path f) (f_at f + length data)),
   mkFs (dirs fs) (<[f_path f := write_at (f_at f) data c]> (files fs))).

(** [f.Close()] never fails here, so the deferred
    [coinbasepro.Capture(&capture, f.Close())] leaves the returned error
    as it is. Like [Write], it stands for a file system that works: the
    errors that the source passes on from [enc.Encode], [enc.Close] and
    [f.Close] once it has begun to write do not occur, and nothing below
    speaks of such runs. *)
Definition Close (f : File) : M unit := ret tt.

(** [enc := yaml.NewEncoder(f); enc.Encode(&configSet); enc.Close()]. *)
Definition yaml_Encode (f : File) (configSet : reticuleConfigSet) : M File :=
  Write f (encode configSet).

(** [yaml.Unmarshal(b, &configSet)] on a zero [configSet]. *)
Definition yaml_Unmarshal (b : list byte) : M reticuleConfigSet :=
  match decode b with
  | Some cs => ret cs
  | None => fail ErrYaml
  end.

(** *** configPath (lines 202-208) *)
Definition configPath : M string :=
  match UserHomeDir with
  | None => fail ErrNoHome
  | Some home => ret (path_Join [home; ".reticule"; "reticule"])
  end.

(** *** readConfigSet (lines 210-230) *)
Definition readConfigSet (configPath : string) : M reticuleConfigSet :=
  r ← Open configPath;
  match r with
  | inr err =>
      if is_ErrNotExist err then fail (ErrConfigFileMissing configPath)
      else fail err
  | inl f =>
      '(b, f) ← ReadAll f;
      configSet ← yaml_Unmarshal b;
      _ ← Close f;
      ret configSet
  end.

(** *** writeConfigSet (lines 232-244) *)
Definition writeConfigSet (configPath : string)
    (configSet : reticuleConfigSet) : M unit :=
  r ← OpenFile configPath O_WRONLY_TRUNC;
  match r with
  | inr err => fail err
  | inl f =>
      f ← yaml_Encode f configSet;
      Close f
  end.

(** *** createReticuleConfigCmd.Run (lines 61-121) *)

(** Lines 96-106: the new profile. *)
Definition create_cfg (c : createReticuleConfigCmd) : reticuleConfig :=
  {| BaseURL := URL_String (create_BaseURL c);
     FeedURL := URL_String (create_FeedURL c);
     cfgAuth := NewAuth (create_Key c) (create_Passphrase c) (create_Secret c);
     ServerIP := create_BindAddress c;
     ServerPort := create_ServerPort c;
     ServerSecret := create_ServerAuth c |}.

(** Lines 96-114: the in-memory change of [configSet]. *)
Definition create_apply (c : createReticuleConfigCmd)
    (configSet : reticuleConfigSet) : outcome reticuleConfigSet :=
  let cfg := create_cfg c in
  let configSet :=
    match Configs configSet with
    | None => {| Current := create_Name c; Configs := Some ∅ |}
    | Some _ => configSet
    end in
  let configSet :=
    if create_Use c then setCurrent (create_Name c) configSet
    else configSet in
  or_panic (assignConfig (create_Name c) cfg configSet).

(** Lines 66-95: the open file and the [configSet] to start from. The
    deferred [f.Close()] of the [default] case changes nothing. *)
Definition create_open (c : createReticuleConfigCmd) (configPath : string)
  : M (File * reticuleConfigSet) :=
  r ← OpenFile configPath O_RDWR_CREATE;
  match r with
  | inr err =>
      if is_ErrNotExist err then
        let cfgDir := path_Dir configPath in
        err ← MkdirAll cfgDir;
        match err with
        | Some err => fail err
        | None =>
            (* fmt.Printf("creating config %q\n", configPath) *)
            r ← Create configPath;
            match r with
            | inr err => fail err
            | inl f => ret (f, zeroConfigSet)
            end
        end
      else fail err
  | inl f =>
      '(b, f) ← ReadAll f;
      configSet ← yaml_Unmarshal b;
      match lookupConfig (create_Name c) configSet with
      | Some _ => fail (ErrAlreadyExists (create_Name c))
      | None => ret (f, configSet)
      end
  end.

Definition createReticuleConfigCmd_Run (c : createReticuleConfigCmd)
  : M unit :=
  configPath ← configPath;
  '(f, configSet) ← create_open c configPath;
  configSet ← lift (create_apply c configSet);
  f ← yaml_Encode f configSet;
  ret tt.

(** *** deleteReticuleConfigCmd.Run (lines 127-138) *)
Definition deleteReticuleConfigCmd_Run (d : deleteReticuleConfigCmd)
  : M unit :=
  configPath ← configPath;
  configSet ← readConfigSet configPath;
  let configSet := deleteConfig (delete_Name d) configSet in
  writeConfigSet configPath configSet.

(** *** updateReticuleConfigCmd.Run (lines 154-200) *)

(** Lines 167-172: the URLs. *)
Definition update_urls (c : updateReticuleConfigCmd) (cfg : reticuleConfig)
  : reticuleConfig :=
  let cfg :=
    match update_BaseURL c with
    | Some u => with_BaseURL (URL_String u) cfg
    | None => cfg
    end in
  let cfg :=
    match update_FeedURL c with
    | Some u => with_FeedURL (URL_String u) cfg
    | None => cfg
    end in
  cfg.

(** Lines 173-181: the credentials, through the [Auth] pointer. *)
Definition update_credentials (c : updateReticuleConfigCmd)
    (cfg : reticuleConfig) : outcome reticuleConfig :=
  cfg ← (if decide (update_Key c = "") then Ok cfg
         else or_panic (set_Auth_Key (update_Key c) cfg));
  cfg ← (if decide (update_Passphrase c = "") then Ok cfg
         else or_panic (set_Auth_Passphrase (update_Passphrase c) cfg));
  cfg ← (if decide (update_Secret c = "") then Ok cfg
         else or_panic (set_Auth_Secret (update_Secret c) cfg));
  Ok cfg.

(** Lines 189-197: the server fields. *)
Definition update_server (c : updateReticuleConfigCmd) (cfg : reticuleConfig)
  : reticuleConfig :=
  let cfg :=
    if decide (update_BindAddress c = "") then cfg
    else with_ServerIP (update_BindAddress c) cfg in
  let cfg :=
    if decide (update_ServerPort c = 0%Z) then cfg
    else with_ServerPort (update_ServerPort c) cfg in
  let cfg :=
    if decide (update_ServerAuth c = "") then cfg
    else with_ServerSecret (update_ServerAuth c) cfg in
  cfg.

(** Lines 163-198: the in-memory change of [configSet]. [name] is
    [c.Name], which the rename overwrites. *)
Definition update_apply (c : updateReticuleConfigCmd)
    (configSet : reticuleConfigSet) : outcome reticuleConfigSet :=
  match lookupConfig (update_Name c) configSet with
  | None => Err (ErrDoesNotExist (update_Name c))
  | Some cfg =>
      let cfg := update_urls c cfg in
      cfg ← update_credentials c cfg;
      let '(configSet, name) :=
        if decide (update_Rename c = "") then (configSet, update_Name c)
        else (deleteConfig (update_Name c) configSet, update_Rename c) in
      let configSet :=
        if update_Use c then setCurrent name configSet else configSet in
      let cfg := update_server c cfg in
      or_panic (assignConfig name cfg configSet)
  end.

Definition updateReticuleConfigCmd_Run (c : updateReticuleConfigCmd)
  : M unit :=
  configPath ← configPath;
  configSet ← readConfigSet configPath;
  configSet ← lift (update_apply c configSet);
  writeConfigSet configPath configSet.

End Commands.

(** ** A concrete environment to run the model in

    A stand-in for what the [Commands] section takes as parameters: plain
    versions of [path.Join] and [path.Dir], and a small binary codec that
    reads back what it writes. It is not YAML; like YAML it decodes an empty
    file to the zero [reticuleConfigSet] and rejects a file with anything
    after the document. *)
Module TestEnv.

Definition Join (elem : list string) : string := String.concat "/" elem.

(** The part of [s] before its last slash, if it has one. *)
Fixpoint before_last_slash (s : string) : option string :=
  match s with
  | EmptyString => None
  | String a s' =>
      match before_last_slash s' with
      | Some d => Some (String a d)
      | None => if Ascii.eqb a "/"%char then Some EmptyString else None
      end
  end.

Definition Dir (p : string) : string :=
  match before_last_slash p with
  | None => "."
  | Some EmptyString => "/"
  | Some d => d
  end.

Definition home : option string := Some "/home/u".

(** Strings are written NUL-terminated, integers in decimal. *)
Definition enc_string (s : string) : list byte :=
  list_byte_of_string s ++ ["000"%byte].

Fixpoint dec_bytes (bs : list byte) : option (list byte * list byte) :=
  match bs with
  | [] => None
  | b :: bs =>
      if Byte.eqb b "000" then Some ([], bs)
      else '(s, r) ← dec_bytes bs; Some (b :: s, r)
  end.

Definition dec_string (bs : list byte) : option (string * list byte) :=
  '(s, r) ← dec_bytes bs; Some (string_of_list_byte s, r).

Definition enc_Z (z : Z) : list byte :=
  enc_string (NilZero.string_of_int (Z.to_int z)).

Definition dec_Z (bs : list byte) : option (Z * list byte) :=
  '(s, r) ← dec_string bs;
  i ← NilZero.int_of_string s;
  Some (Z.of_int i, r).

Definition enc_Auth (a : option Auth) : list byte :=
  match a with
  | None => ["000"%byte]
  | Some a =>
      ["001"%byte] ++ enc_string (Key a) ++ enc_string (Passphrase a)
                   ++ enc_string (Secret a)
  end.

Definition dec_Auth (bs : list byte) : option (option Auth * list byte) :=
  match bs with
  | "000"%byte :: r => Some (None, r)
  | "001"%byte :: r =>
      '(k, r) ← dec_string r;
      '(p, r) ← dec_string r;
      '(s, r) ← dec_string r;
      Some (Some (mkAuth k p s), r)
  | _ => None
  end.

Definition enc_config (cfg : reticuleConfig) : list byte :=
  enc_string (BaseURL cfg) ++ enc_string (FeedURL cfg)
    ++ enc_Auth (cfgAuth cfg) ++ enc_string (ServerIP cfg)
    ++ enc_Z (ServerPort cfg) ++ enc_string (ServerSecret cfg).

Definition dec_config (bs : list byte) : option (reticuleConfig * list byte) :=
  '(b, r) ← dec_string bs;
  '(f, r) ← dec_string r;
  '(a, r) ← dec_Auth r;
  '(ip, r) ← dec_string r;
  '(port, r) ← dec_Z r;
  '(sec, r) ← dec_string r;
  Some (mkConfig b f a ip port sec, r).

Definition enc_entries (l : list (string * reticuleConfig)) : list byte :=
  concat ((λ e, ["001"%byte] ++ enc_string e.1 ++ enc_config e.2) <$> l)
    ++ ["000"%byte].

Fixpoint dec_entries (fuel : nat) (bs : list byte)
  : option (list (string * reticuleConfig) * list byte) :=
  match fuel with
  | O => None
  | S fuel =>
      match bs with
      | "000"%byte :: r => Some ([], r)
      | "001"%byte :: r =>
          '(name, r) ← dec_string r;
          '(cfg, r) ← dec_config r;
          '(es, r) ← dec_entries fuel r;
          Some ((name, cfg) :: es, r)
      | _ => None
      end
  end.

Definition encode (cs : reticuleConfigSet) : list byte :=
  enc_string (Current cs) ++
  match Configs cs with
  | None => ["000"%byte]
  | Some m => ["001"%byte] ++ enc_entries (map_to_list m)
  end.

Definition decode (bs : list byte) : option reticuleConfigSet :=
  match bs with
  | [] => Some zeroConfigSet
  | _ =>
      '(cur, r) ← dec_string bs;
      match r with
      | ["000"%byte] => Some (mkConfigSet cur None)
      | "001"%byte :: r =>
          '(es, r) ← dec_entries (length r) r;
          match r with
          | [] => Some (mkConfigSet cur (Some (list_to_map es)))
          | _ => None
          end
      | _ => None
      end
  end.

Definition path : string := Join ["/home/u"; ".reticule"; "reticule"].

Definition create : createReticuleConfigCmd → M unit :=
  createReticuleConfigCmd_Run Join Dir home encode decode.
Definition update : updateReticuleConfigCmd → M unit :=
  updateReticuleConfigCmd_Run Join Dir home encode decode.
Definition delete : deleteReticuleConfigCmd → M unit :=
  deleteReticuleConfigCmd_Run Join Dir home encode decode.

(** A fresh machine: the home directory exists, nothing else. *)
Definition fs0 : Fs := mkFs {["/home/u"]} ∅.

(** The stored [reticuleConfigSet], when the config file is there and
    decodes. *)
Definition stored (fs : Fs) : option reticuleConfigSet :=
  b ← files fs !! path; decode b.

(** Sample commands and stored states. *)
Definition sandbox : URL := mkURL "https://api-public.sandbox.pro.coinbase.com".
Definition feed : URL := mkURL "wss://ws-feed-public.sandbox.pro.coinbase.com".

Definition create_alice : createReticuleConfigCmd :=
  mkCreate "alice" sandbox feed "K1" "P1" "S1" false 80 "127.0.0.1" "default".
Definition create_bob : createReticuleConfigCmd :=
  mkCreate "bob" sandbox feed "K2" "P2" "S2" false 80 "127.0.0.1" "default".

Definition alice_cfg : reticuleConfig := create_cfg create_alice.
Definition bob_cfg : reticuleConfig := create_cfg create_bob.

(** A profile as a hand-edited file can hold it: no [Auth] entry. *)
Definition bare_cfg : reticuleConfig :=
  mkConfig "https://x" "wss://x" None "127.0.0.1" 80 "default".

Definition cs_alice : reticuleConfigSet :=
  mkConfigSet "alice" (Some {["alice" := alice_cfg]}).
Definition cs_alice_bob : reticuleConfigSet :=
  mkConfigSet "alice" (Some (<["bob" := bob_cfg]> {["alice" := alice_cfg]})).
Definition cs_bare : reticuleConfigSet :=
  mkConfigSet "alice" (Some {["alice" := bare_cfg]}).

Definition key_for (name : string) : updateReticuleConfigCmd :=
  mkUpdate name None None "K9" "" "" "" false 0 "" "".
Definition bob_to_carol_use : updateReticuleConfigCmd :=
  mkUpdate "bob" None None "" "" "carol" "" true 0 "" "".
Definition alice_to_carol : updateReticuleConfigCmd :=
  mkUpdate "alice" None None "" "" "carol" "" false 0 "" "".

(** The machine with [cs] stored in the config file. *)
Definition fs_with (cs : reticuleConfigSet) : Fs :=
  mkFs {["/home/u"; "/home/u/.reticule"]} {[path := encode cs]}.

(** The machine with the bytes [b] in the config file. *)
Definition fs_with_bytes (b : list byte) : Fs :=
  mkFs {["/home/u"; "/home/u/.reticule"]} {[path := b]}.

End TestEnv.


(** * Properties *)

(** The config file of the user whose home directory is [home], as
    [configPath] computes it. *)
Definition configFile (path_Join : list string → string) (home : string)
  : string :=
  path_Join [home; ".reticule"; "reticule"].
Arguments configFile : simpl never.

(** The file system [fs] once [content] is stored at [p]. *)
Definition with_file (p : string) (content : list byte) (fs : Fs) : Fs :=
  mkFs (dirs fs) (<[p := content]> (files fs)).

(** An [Update] that supplies one of the three credentials. *)
Definition supplies_credential (c : updateReticuleConfigCmd) : Prop :=
  update_Key c ≠ "" ∨ update_Passphrase c ≠ "" ∨ update_Secret c ≠ "".

(** The name the patched profile is stored under. *)
Definition update_target (c : updateReticuleConfigCmd) : string :=
  if decide (update_Rename c = "") then update_Name c else update_Rename c.

(** [Create] starts from a [reticuleConfigSet] whose map is nil: there is no
    config file (when its directory is there, [Create] decodes the empty
    file that [OpenFile] has just made), or the file decodes to a set
    without map. *)
Definition starts_without_map (path_Dir : string → string)
    (decode : list byte → option reticuleConfigSet) (p : string) (fs : Fs)
  : Prop :=
  match files fs !! p with
  | Some b => ∃ cs, decode b = Some cs ∧ Configs cs = None
  | None =>
      path_Dir p ∈ dirs fs → ∃ cs, decode [] = Some cs ∧ Configs cs = None
  end.

Ltac unfold_M :=
  unfold mbind, mret, M_bind, M_ret, bind, ret, fail, panic, lift in *.

Lemma write_at_0_nil (data : list byte) : write_at 0 data [] = data.
Proof.
  unfold write_at. cbn [take drop length replicate Nat.sub Nat.add app].
  by rewrite drop_nil, app_nil_r.
Qed.

Lemma write_at_end (data c : list byte) : write_at (length c) data c = c ++ data.
Proof.
  unfold write_at.
  rewrite firstn_all, Nat.sub_diag, drop_ge by lia.
  cbn [replicate app]. by rewrite app_nil_r.
Qed.

Lemma with_file_with_file p x y fs :
  with_file p y (with_file p x fs) = with_file p y fs.
Proof. unfold with_file; cbn. by rewrite insert_insert_eq. Qed.

Lemma files_with_file p x fs : files (with_file p x fs) !! p = Some x.
Proof. unfold with_file; cbn. apply lookup_insert_eq. Qed.

Lemma files_with_file_ne p q x fs :
  p ≠ q → files (with_file p x fs) !! q = files fs !! q.
Proof. intros. unfold with_file; cbn. by apply lookup_insert_ne. Qed.

Section Repository.

Variable path_Join : list string → string.
Variable path_Dir : string → string.
Variable encode : reticuleConfigSet → list byte.
Variable decode : list byte → option reticuleConfigSet.

Lemma configPath_home home fs :
  configPath path_Join (Some home) fs = (Ok (configFile path_Join home), fs).
Proof. reflexivity. Qed.

Lemma readConfigSet_ok p fs b cs :
  files fs !! p = Some b → decode b = Some cs →
  readConfigSet decode p fs = (Ok cs, fs).
Proof.
  intros Hb Hd. unfold readConfigSet, Open, ReadAll, yaml_Unmarshal, Close.
  unfold_M. rewrite Hb. cbn. rewrite Hb. cbn. rewrite drop_0, Hd. done.
Qed.

Lemma readConfigSet_missing p fs :
  files fs !! p = None →
  readConfigSet decode p fs = (Err (ErrConfigFileMissing p), fs).
Proof.
  intros Hb. unfold readConfigSet, Open. unfold_M. by rewrite Hb.
Qed.

Lemma readConfigSet_malformed p fs b :
  files fs !! p = Some b → decode b = None →
  readConfigSet decode p fs = (Err ErrYaml, fs).
Proof.
  intros Hb Hd. unfold readConfigSet, Open, ReadAll, yaml_Unmarshal.
  unfold_M. rewrite Hb. cbn. rewrite Hb. cbn. rewrite drop_0, Hd. done.
Qed.

(** [writeConfigSet] replaces the whole content of an existing file by the
    encoding of the [reticuleConfigSet] it is given. *)
Lemma writeConfigSet_ok p fs cs :
  is_Some (files fs !! p) →
  writeConfigSet path_Dir encode p cs fs = (Ok (), with_file p (encode cs) fs).
Proof.
  intros [b Hb]. unfold writeConfigSet, OpenFile, yaml_Encode, Write, Close.
  unfold_M. rewrite Hb. cbn. rewrite lookup_insert_eq. cbn.
  rewrite write_at_0_nil, insert_insert_eq. done.
Qed.

Lemma writeConfigSet_missing p fs cs :
  files fs !! p = None →
  writeConfigSet path_Dir encode p cs fs = (Err (ErrNotExist p), fs).
Proof.
  intros Hb. unfold writeConfigSet, OpenFile. unfold_M. by rewrite Hb.
Qed.

End Repository.

(** ** The in-memory changes *)

Arguments create_apply : simpl never.
Arguments update_apply : simpl never.

Lemma create_apply_nil c cs :
  Configs cs = None →
  create_apply c cs =
    Ok {| Current := create_Name c;
          Configs := Some {[create_Name c := create_cfg c]} |}.
Proof.
  destruct cs as [cur ms]; cbn. intros ->. unfold create_apply; cbn.
  destruct (create_Use c); cbn; by rewrite insert_empty.
Qed.

Lemma create_apply_map c cs m :
  Configs cs = Some m →
  create_apply c cs =
    Ok {| Current := if create_Use c then create_Name c else Current cs;
          Configs := Some (<[create_Name c := create_cfg c]> m) |}.
Proof.
  destruct cs as [cur ms]; cbn. intros ->. unfold create_apply; cbn.
  by destruct (create_Use c).
Qed.

(** [Create] never panics: the map is allocated before it is assigned to. *)
Lemma create_apply_total c cs : ∃ cs', create_apply c cs = Ok cs'.
Proof.
  destruct (Configs cs) as [m|] eqn:Hm.
  - eexists. by apply create_apply_map.
  - eexists. by apply create_apply_nil.
Qed.

Lemma deleteConfig_absent name cs :
  lookupConfig name cs = None → deleteConfig name cs = cs.
Proof.
  destruct cs as [cur [m|]]; unfold lookupConfig, deleteConfig; cbn; [|done].
  intros Hn. by rewrite delete_id.
Qed.

Lemma lookupConfig_deleteConfig name name' cs :
  lookupConfig name' (deleteConfig name cs) =
    if decide (name = name') then None else lookupConfig name' cs.
Proof.
  destruct cs as [cur [m|]]; unfold lookupConfig, deleteConfig; cbn.
  - apply lookup_delete.
  - by case_decide.
Qed.

Section Create.

Variable path_Join : list string → string.
Variable path_Dir : string → string.
Variable encode : reticuleConfigSet → list byte.
Variable decode : list byte → option reticuleConfigSet.
Variable home : string.

Abbreviation p := (configFile path_Join home).
Abbreviation Run :=
  (createReticuleConfigCmd_Run path_Join path_Dir (Some home) encode decode).

(** On a config file that is there, [Create] writes after what it has
    read: the file keeps its old content, followed by the encoding. *)
Lemma create_Run_existing c fs b cs cs' :
  files fs !! p = Some b → decode b = Some cs →
  lookupConfig (create_Name c) cs = None →
  create_apply c cs = Ok cs' →
  Run c fs = (Ok (), with_file p (b ++ encode cs') fs).
Proof.
  intros Hb Hd Hn Ha.
  unfold createReticuleConfigCmd_Run, create_open, OpenFile, ReadAll,
    yaml_Unmarshal, yaml_Encode, Write.
  unfold_M. rewrite configPath_home. fold p.
  rewrite Hb. cbn. rewrite Hb. cbn. rewrite drop_0, Hd. cbn.
  rewrite Hn. cbn. rewrite Ha, Hb. cbn. by rewrite write_at_end.
Qed.

(** Without the directory of the config file, [Create] makes both and
    fills the file with the encoding. *)
Lemma create_Run_missing_dir c fs cs' :
  files fs !! p = None → path_Dir p ∉ dirs fs →
  create_apply c zeroConfigSet = Ok cs' →
  Run c fs =
    (Ok (), mkFs ({[path_Dir p]} ∪ dirs fs) (<[p := encode cs']> (files fs))).
Proof.
  intros Hb Hdir Ha.
  unfold createReticuleConfigCmd_Run, create_open, OpenFile, MkdirAll,
    Create, yaml_Encode, Write.
  unfold_M. rewrite configPath_home. fold p. rewrite Hb.
  rewrite decide_False by done. cbn.
  rewrite decide_True by set_solver. rewrite Ha. cbn.
  rewrite lookup_insert_eq. cbn.
  by rewrite write_at_0_nil, insert_insert_eq.
Qed.

(** With the directory but without the file, [OpenFile] creates the file
    empty and [Create] goes on as for an existing, empty file: it decodes
    no bytes at all. *)
Lemma create_Run_missing_file c fs cs cs' :
  files fs !! p = None → path_Dir p ∈ dirs fs →
  decode [] = Some cs →
  lookupConfig (create_Name c) cs = None →
  create_apply c cs = Ok cs' →
  Run c fs = (Ok (), with_file p (encode cs') fs).
Proof.
  intros Hb Hdir Hd Hn Ha.
  unfold createReticuleConfigCmd_Run, create_open, OpenFile, ReadAll,
    yaml_Unmarshal, yaml_Encode, Write.
  unfold_M. rewrite configPath_home. fold p. rewrite Hb.
  rewrite decide_True by done. cbn.
  rewrite lookup_insert_eq. cbn. rewrite Hd. cbn. rewrite Hn. cbn.
  rewrite Ha. rewrite lookup_insert_eq. cbn.
  by rewrite write_at_0_nil, insert_insert_eq.
Qed.

Lemma create_Run_conflict c fs b cs :
  files fs !! p = Some b → decode b = Some cs →
  is_Some (lookupConfig (create_Name c) cs) →
  Run c fs = (Err (ErrAlreadyExists (create_Name c)), fs).
Proof.
  intros Hb Hd [cfg Hn].
  unfold createReticuleConfigCmd_Run, create_open, OpenFile, ReadAll,
    yaml_Unmarshal.
  unfold_M. rewrite configPath_home. fold p.
  rewrite Hb. cbn. rewrite Hb. cbn. by rewrite drop_0, Hd, Hn.
Qed.

End Create.

(** ** Update: the credential patch *)

Lemma cfgAuth_update_urls c cfg : cfgAuth (update_urls c cfg) = cfgAuth cfg.
Proof.
  unfold update_urls.
  by destruct (update_BaseURL c), (update_FeedURL c).
Qed.

(** With an [Auth] behind the pointer the credential patch goes through and
    overwrites the supplied fields only. *)
Lemma update_credentials_Some c cfg a :
  cfgAuth cfg = Some a →
  update_credentials c cfg =
    Ok (with_Auth
          (Some (mkAuth
             (if decide (update_Key c = "") then Key a else update_Key c)
             (if decide (update_Passphrase c = "") then Passphrase a
              else update_Passphrase c)
             (if decide (update_Secret c = "") then Secret a
              else update_Secret c)))
          cfg).
Proof.
  destruct cfg as [b f au ip port sec], a as [k pw s]; cbn. intros ->.
  unfold update_credentials, set_Auth_Key, set_Auth_Passphrase,
    set_Auth_Secret, with_Auth.
  by repeat case_decide.
Qed.

(** With a nil pointer, the first supplied credential panics. *)
Lemma update_credentials_None c cfg :
  cfgAuth cfg = None → supplies_credential c →
  update_credentials c cfg = Panic.
Proof.
  destruct cfg as [b f au ip port sec]; cbn. intros -> Hsup.
  unfold update_credentials, set_Auth_Key, set_Auth_Passphrase,
    set_Auth_Secret.
  destruct Hsup as [H|[H|H]]; repeat case_decide; done.
Qed.

(** Without any credential supplied the pointer is not followed. *)
Lemma update_credentials_none_supplied c cfg :
  ¬ supplies_credential c → update_credentials c cfg = Ok cfg.
Proof.
  unfold supplies_credential, update_credentials. intros Hsup.
  repeat case_decide; try done; exfalso; apply Hsup; auto.
Qed.

Lemma update_apply_absent c cs :
  lookupConfig (update_Name c) cs = None →
  update_apply c cs = Err (ErrDoesNotExist (update_Name c)).
Proof. unfold update_apply. by intros ->. Qed.

Lemma update_apply_panic c cs cfg :
  lookupConfig (update_Name c) cs = Some cfg →
  update_credentials c (update_urls c cfg) = Panic →
  update_apply c cs = Panic.
Proof. unfold update_apply. by intros -> ->. Qed.

Lemma update_apply_ok c cs m cfg cfg1 :
  Configs cs = Some m → m !! update_Name c = Some cfg →
  update_credentials c (update_urls c cfg) = Ok cfg1 →
  update_apply c cs =
    Ok {| Current := if update_Use c then update_target c else Current cs;
          Configs :=
            Some (<[update_target c := update_server c cfg1]>
                    (if decide (update_Rename c = "") then m
                     else delete (update_Name c) m)) |}.
Proof.
  destruct cs as [cur ms]; cbn. intros -> Hcfg Hcred.
  unfold update_apply, lookupConfig, update_target; cbn.
  rewrite Hcfg, Hcred; cbn.
  by case_decide; destruct (update_Use c).
Qed.

Section UpdateDelete.

Variable path_Join : list string → string.
Variable path_Dir : string → string.
Variable encode : reticuleConfigSet → list byte.
Variable decode : list byte → option reticuleConfigSet.
Variable home : string.

Abbreviation p := (configFile path_Join home).
Abbreviation RunUpdate :=
  (updateReticuleConfigCmd_Run path_Join path_Dir (Some home) encode decode).
Abbreviation RunDelete :=
  (deleteReticuleConfigCmd_Run path_Join path_Dir (Some home) encode decode).

(** [Update] on a file that decodes: the outcome is that of the in-memory
    change, and the file is rewritten only when it succeeds. *)
Lemma update_Run_loaded c fs b cs :
  files fs !! p = Some b → decode b = Some cs →
  RunUpdate c fs =
    match update_apply c cs with
    | Ok cs' => (Ok (), with_file p (encode cs') fs)
    | Err e => (Err e, fs)
    | Panic => (Panic, fs)
    end.
Proof.
  intros Hb Hd. unfold updateReticuleConfigCmd_Run. unfold_M.
  rewrite configPath_home. fold p.
  rewrite (readConfigSet_ok decode p fs b cs Hb Hd).
  destruct (update_apply c cs) as [cs'| |]; [|done..].
  by rewrite writeConfigSet_ok.
Qed.

Lemma update_Run_missing c fs :
  files fs !! p = None →
  RunUpdate c fs = (Err (ErrConfigFileMissing p), fs).
Proof.
  intros Hb. unfold updateReticuleConfigCmd_Run. unfold_M.
  rewrite configPath_home. fold p.
  by rewrite (readConfigSet_missing decode p fs Hb).
Qed.

(** [Delete] on a file that decodes rewrites it with the encoding of the
    loaded set less the name. *)
Lemma delete_Run_loaded d fs b cs :
  files fs !! p = Some b → decode b = Some cs →
  RunDelete d fs =
    (Ok (), with_file p (encode (deleteConfig (delete_Name d) cs)) fs).
Proof.
  intros Hb Hd. unfold deleteReticuleConfigCmd_Run. unfold_M.
  rewrite configPath_home. fold p.
  rewrite (readConfigSet_ok decode p fs b cs Hb Hd).
  by rewrite writeConfigSet_ok.
Qed.

Lemma delete_Run_missing d fs :
  files fs !! p = None →
  RunDelete d fs = (Err (ErrConfigFileMissing p), fs).
Proof.
  intros Hb. unfold deleteReticuleConfigCmd_Run. unfold_M.
  rewrite configPath_home. fold p.
  by rewrite (readConfigSet_missing decode p fs Hb).
Qed.

End UpdateDelete.

(** * The claims *)

Section Claims.

Variable path_Join : list string → string.
Variable path_Dir : string → string.
Variable encode : reticuleConfigSet → list byte.
Variable decode : list byte → option reticuleConfigSet.
Variable home : string.

Abbreviation p := (configFile path_Join home).
Abbreviation RunCreate :=
  (createReticuleConfigCmd_Run path_Join path_Dir (Some home) encode decode).
Abbreviation RunUpdate :=
  (updateReticuleConfigCmd_Run path_Join path_Dir (Some home) encode decode).
Abbreviation RunDelete :=
  (deleteReticuleConfigCmd_Run path_Join path_Dir (Some home) encode decode).

(** C1, where the code departs from it: [Create] against a config file
    that already holds something, with a name not yet in it, succeeds and
    leaves the file with its old bytes followed by the encoding of the
    merged set. The file is appended to, not rewritten: its content is
    not the encoding of the merged set. ([Update], [Delete] and [Create]
    without a file do write the encoding and nothing else:
    [update_Run_loaded], [delete_Run_loaded], [create_Run_missing_dir].) *)
Theorem create_on_existing_file_appends c fs b cs :
  files fs !! p = Some b → b ≠ [] → decode b = Some cs →
  lookupConfig (create_Name c) cs = None →
  ∃ cs', create_apply c cs = Ok cs' ∧
         RunCreate c fs = (Ok (), with_file p (b ++ encode cs') fs) ∧
         files (RunCreate c fs).2 !! p ≠ Some (encode cs').
Proof.
  intros Hb Hne Hd Hn.
  destruct (create_apply_total c cs) as [cs' Ha].
  exists cs'. split; [done|].
  rewrite (create_Run_existing _ _ _ _ _ c fs b cs cs' Hb Hd Hn Ha).
  split; [done|]. cbn. rewrite lookup_insert_eq.
  intros [= Heq]. apply Hne.
  apply (f_equal length) in Heq. rewrite length_app in Heq.
  destruct b; [done|]. cbn in Heq. lia.
Qed.

(** C2: when the stored set already has a profile with the name, [Create]
    fails with the "already exists, use update" error, a conflict error,
    and the file system is as it was: nothing is written. *)
Theorem create_existing_name_conflict c fs b cs :
  files fs !! p = Some b → decode b = Some cs →
  is_Some (lookupConfig (create_Name c) cs) →
  RunCreate c fs = (Err (ErrAlreadyExists (create_Name c)), fs) ∧
  classify (ErrAlreadyExists (create_Name c)) = ConflictError.
Proof.
  intros Hb Hd Hn. split; [|done].
  by apply (create_Run_conflict _ _ _ _ _ c fs b cs).
Qed.

(** C3: when [Create] starts from a set with no profiles yet, one whose map
    is nil (there is no config file, or the file, such as an empty one,
    decodes to a set without map), it succeeds and the set it writes has
    the new profile as its only one and as [Current], whatever the use
    flag: the first profile becomes current. *)
Theorem create_first_profile_becomes_current c fs :
  starts_without_map path_Dir decode p fs →
  let cs' := {| Current := create_Name c;
                Configs := Some {[create_Name c := create_cfg c]} |} in
  ∃ fs', RunCreate c fs = (Ok (), fs') ∧
         files fs' !! p = Some (default [] (files fs !! p) ++ encode cs') ∧
         Current cs' = create_Name c.
Proof.
  intros Hstart cs'. unfold starts_without_map in Hstart.
  destruct (files fs !! p) as [b|] eqn:Hb.
  - destruct Hstart as (cs & Hd & Hnil).
    eexists. split; [|split; [|done]].
    + apply (create_Run_existing _ _ _ _ _ c fs b cs cs' Hb Hd);
        [by unfold lookupConfig; rewrite Hnil|by apply create_apply_nil].
    + apply files_with_file.
  - destruct (decide (path_Dir p ∈ dirs fs)) as [Hdir|Hdir].
    + destruct (Hstart Hdir) as (cs & Hd & Hnil).
      eexists. split; [|split; [|done]].
      * apply (create_Run_missing_file _ _ _ _ _ c fs cs cs' Hb Hdir Hd);
          [by unfold lookupConfig; rewrite Hnil|by apply create_apply_nil].
      * apply files_with_file.
    + eexists. split; [|split; [|done]].
      * apply (create_Run_missing_dir _ _ _ _ _ c fs cs' Hb Hdir).
        by apply create_apply_nil.
      * cbn. apply lookup_insert_eq.
Qed.

(** C4: an [Update] of an existing profile (one with an [Auth]) that
    supplies the key and nothing else succeeds and rewrites the file with
    a set that differs from the loaded one in that profile's [Auth.Key]
    only: [Current], every other profile and every other field of the
    profile are as they were. *)
Theorem update_key_only n k fs b cs cfg a :
  files fs !! p = Some b → decode b = Some cs →
  lookupConfig n cs = Some cfg → cfgAuth cfg = Some a → k ≠ "" →
  let c := mkUpdate n None None k "" "" "" false 0 "" "" in
  ∃ cs', update_apply c cs = Ok cs' ∧
         RunUpdate c fs = (Ok (), with_file p (encode cs') fs) ∧
         Current cs' = Current cs ∧
         (∀ n', n' ≠ n → lookupConfig n' cs' = lookupConfig n' cs) ∧
         lookupConfig n cs' =
           Some (mkConfig (BaseURL cfg) (FeedURL cfg)
                   (Some (mkAuth k (Passphrase a) (Secret a)))
                   (ServerIP cfg) (ServerPort cfg) (ServerSecret cfg)).
Proof.
  intros Hb Hd Hcfg Ha Hk c.
  destruct cs as [cur [m|]]; [|done]. unfold lookupConfig in Hcfg; cbn in Hcfg.
  assert (Hcred : update_credentials c (update_urls c cfg) =
            Ok (with_Auth (Some (mkAuth k (Passphrase a) (Secret a))) cfg)).
  { rewrite (update_credentials_Some c _ a) by done.
    subst c; cbn. by rewrite decide_False. }
  pose proof (update_apply_ok c (mkConfigSet cur (Some m)) m cfg _ eq_refl Hcfg Hcred) as Happ.
  eexists. split; [exact Happ|].
  split; [by rewrite (update_Run_loaded _ _ _ _ _ c fs b _ Hb Hd), Happ|].
  split; [done|]. unfold lookupConfig, update_target; cbn. split.
  - intros n' Hn'. by rewrite lookup_insert_ne.
  - by rewrite lookup_insert_eq.
Qed.

(** C5: [Update] fails with the not-found error when there is no config
    file, and with a conflict error when the file decodes to a set
    without the name; in both cases the file system is as it was. *)
Theorem update_fails_without_file_or_profile c fs :
  (files fs !! p = None →
     RunUpdate c fs = (Err (ErrConfigFileMissing p), fs) ∧
     classify (ErrConfigFileMissing p) = NotFoundError) ∧
  (∀ b cs, files fs !! p = Some b → decode b = Some cs →
     lookupConfig (update_Name c) cs = None →
     RunUpdate c fs = (Err (ErrDoesNotExist (update_Name c)), fs) ∧
     classify (ErrDoesNotExist (update_Name c)) = ConflictError).
Proof.
  split.
  - intros Hb. split; [|done]. by apply update_Run_missing.
  - intros b cs Hb Hd Hn. split; [|done].
    by rewrite (update_Run_loaded _ _ _ _ _ c fs b cs Hb Hd),
      update_apply_absent.
Qed.

(** C6: with profiles alice and bob stored and alice current, [Update] of
    bob with rename carol and the use flag (and nothing else) succeeds and
    rewrites the file with a set whose [Current] is carol, where carol
    holds what bob held, bob is gone and alice (as every profile other
    than bob and carol) is as it was. *)
Theorem update_rename_use fs b cs pa pb :
  files fs !! p = Some b → decode b = Some cs → Current cs = "alice" →
  lookupConfig "alice" cs = Some pa → lookupConfig "bob" cs = Some pb →
  let c := mkUpdate "bob" None None "" "" "carol" "" true 0 "" "" in
  ∃ cs', update_apply c cs = Ok cs' ∧
         RunUpdate c fs = (Ok (), with_file p (encode cs') fs) ∧
         Current cs' = "carol" ∧
         lookupConfig "carol" cs' = Some pb ∧
         lookupConfig "bob" cs' = None ∧
         lookupConfig "alice" cs' = Some pa ∧
         (∀ n, n ≠ "bob" → n ≠ "carol" →
            lookupConfig n cs' = lookupConfig n cs).
Proof.
  intros Hb Hd Hcur Hpa Hpb c.
  destruct cs as [cur [m|]]; [|done].
  unfold lookupConfig in Hpa, Hpb; cbn in Hpa, Hpb.
  assert (Hcred : update_credentials c (update_urls c pb) = Ok pb)
    by (apply update_credentials_none_supplied; intros [H|[H|H]]; done).
  pose proof (update_apply_ok c (mkConfigSet cur (Some m)) m pb _ eq_refl Hpb Hcred) as Happ.
  eexists. split; [exact Happ|].
  split; [by rewrite (update_Run_loaded _ _ _ _ _ c fs b _ Hb Hd), Happ|].
  split; [done|]. unfold lookupConfig, update_target; cbn.
  rewrite !decide_False by done. repeat split.
  - by rewrite lookup_insert_eq.
  - rewrite lookup_insert_ne by done. by rewrite lookup_delete_eq.
  - rewrite lookup_insert_ne by done. by rewrite lookup_delete_ne.
  - intros n Hn1 Hn2. rewrite lookup_insert_ne by done.
    by rewrite lookup_delete_ne.
Qed.

(** C7: [Delete] of a name that the stored set does not have succeeds and
    rewrites the file with the encoding of the set as it was loaded; with
    a codec that reads that encoding back, the same set is stored
    afterwards. *)
Theorem delete_absent_name d fs b cs :
  files fs !! p = Some b → decode b = Some cs →
  lookupConfig (delete_Name d) cs = None →
  RunDelete d fs = (Ok (), with_file p (encode cs) fs) ∧
  (decode (encode cs) = Some cs →
     readConfigSet decode p (RunDelete d fs).2 = (Ok cs, (RunDelete d fs).2)).
Proof.
  intros Hb Hd Hn.
  rewrite (delete_Run_loaded _ _ _ _ _ d fs b cs Hb Hd).
  rewrite deleteConfig_absent by done. split; [done|].
  intros Hrt. cbn [snd].
  by apply (readConfigSet_ok decode p _ (encode cs)); [apply files_with_file|].
Qed.

(** C8: [Delete] of any name succeeds and rewrites the file with a set
    that has the [Current] of the loaded one (also when that is the
    deleted name, which then names no profile), lacks the name, and has
    every other profile as it was. *)
Theorem delete_keeps_current d fs b cs :
  files fs !! p = Some b → decode b = Some cs →
  let cs' := deleteConfig (delete_Name d) cs in
  RunDelete d fs = (Ok (), with_file p (encode cs') fs) ∧
  Current cs' = Current cs ∧
  lookupConfig (delete_Name d) cs' = None ∧
  (∀ n, n ≠ delete_Name d → lookupConfig n cs' = lookupConfig n cs).
Proof.
  intros Hb Hd cs'.
  split; [exact (delete_Run_loaded _ _ _ _ _ d fs b cs Hb Hd)|].
  split; [done|]. subst cs'. split.
  - by rewrite lookupConfig_deleteConfig, decide_True.
  - intros n Hn. by rewrite lookupConfig_deleteConfig, decide_False.
Qed.

(** C9: an [Update] of an existing profile that supplies a key, a
    passphrase or a secret panics (nil dereference) exactly when the
    profile's [Auth] is nil, and then writes nothing; with a non-nil
    [Auth] it returns without error and rewrites the file. *)
Theorem update_credentials_safe_iff_auth c fs b cs cfg :
  files fs !! p = Some b → decode b = Some cs →
  lookupConfig (update_Name c) cs = Some cfg →
  supplies_credential c →
  ((RunUpdate c fs).1 = Panic ↔ cfgAuth cfg = None) ∧
  (cfgAuth cfg = None → RunUpdate c fs = (Panic, fs)) ∧
  (is_Some (cfgAuth cfg) →
     ∃ cs', update_apply c cs = Ok cs' ∧
            RunUpdate c fs = (Ok (), with_file p (encode cs') fs)).
Proof.
  intros Hb Hd Hcfg Hsup.
  rewrite (update_Run_loaded _ _ _ _ _ c fs b cs Hb Hd).
  destruct (cfgAuth cfg) as [a|] eqn:Ha.
  - destruct cs as [cur [m|]]; [|done].
    unfold lookupConfig in Hcfg; cbn in Hcfg.
    pose proof (update_credentials_Some c (update_urls c cfg) a) as Hcred.
    rewrite cfgAuth_update_urls in Hcred. specialize (Hcred Ha).
    rewrite (update_apply_ok c (mkConfigSet cur (Some m)) m cfg _ eq_refl Hcfg Hcred).
    split; [split; done|]. split; [done|]. intros _. by eexists.
  - assert (Hp : update_apply c cs = Panic).
    { apply (update_apply_panic c cs cfg Hcfg).
      apply update_credentials_None; [|done].
      by rewrite cfgAuth_update_urls. }
    rewrite Hp. split; [done|]. split; [done|]. by intros [? ?].
Qed.

(** C10: an [Update] of an existing profile without the use flag leaves
    [Current] as it was, renaming or not: it rewrites the file with a set
    that has the loaded [Current]; after a rename to another name the old
    name is gone and the new one is there, so a [Current] equal to the old
    name names no profile any more. (The only other outcome is the panic
    of C9, which writes nothing.) *)
Theorem update_without_use_keeps_current c fs b cs cfg :
  files fs !! p = Some b → decode b = Some cs →
  lookupConfig (update_Name c) cs = Some cfg →
  update_Use c = false →
  (¬ (supplies_credential c ∧ cfgAuth cfg = None) →
     ∃ cs', update_apply c cs = Ok cs' ∧
            RunUpdate c fs = (Ok (), with_file p (encode cs') fs) ∧
            Current cs' = Current cs ∧
            (update_Rename c ≠ "" → update_Rename c ≠ update_Name c →
               lookupConfig (update_Name c) cs' = None ∧
               is_Some (lookupConfig (update_Rename c) cs') ∧
               (Current cs = update_Name c →
                  lookupConfig (Current cs') cs' = None))) ∧
  (supplies_credential c ∧ cfgAuth cfg = None → RunUpdate c fs = (Panic, fs)).
Proof.
  intros Hb Hd Hcfg Huse.
  rewrite (update_Run_loaded _ _ _ _ _ c fs b cs Hb Hd). split.
  - intros Hsafe.
    assert (∃ cfg1, update_credentials c (update_urls c cfg) = Ok cfg1)
      as [cfg1 Hcred].
    { destruct (cfgAuth cfg) as [a|] eqn:Ha.
      - eexists. apply (update_credentials_Some _ _ a).
        by rewrite cfgAuth_update_urls.
      - eexists. apply update_credentials_none_supplied. tauto. }
    destruct cs as [cur [m|]]; [|done].
    unfold lookupConfig in Hcfg; cbn in Hcfg.
    pose proof (update_apply_ok c (mkConfigSet cur (Some m)) m cfg _ eq_refl Hcfg Hcred) as Happ.
    rewrite Happ, Huse. eexists. split; [done|]. split; [done|].
    split; [done|]. cbn. intros Hr1 Hr2.
    unfold lookupConfig, update_target; cbn.
    rewrite !decide_False by done.
    assert (<[update_Rename c:=update_server c cfg1]>
              (delete (update_Name c) m) !! update_Name c = None) as Hgone
      by (rewrite lookup_insert_ne by done; by rewrite lookup_delete_eq).
    split; [done|]. split; [by rewrite lookup_insert_eq|].
    by intros ->.
  - intros [Hsup Ha].
    rewrite (update_apply_panic c cs cfg Hcfg); [done|].
    apply update_credentials_None; [|done]. by rewrite cfgAuth_update_urls.
Qed.

End Claims.

(** * The claims on concrete files *)

Section Witnesses.

Import TestEnv.

Local Ltac run := vm_compute; reflexivity.

Lemma home_file : configFile Join "/home/u" = path.
Proof. reflexivity. Qed.

(** bob created in the file that holds alice. *)
Lemma create_on_existing_file_appends_witness :
  ∃ cs', create_apply create_bob cs_alice = Ok cs' ∧
         create create_bob (fs_with cs_alice) =
           (Ok (), with_file path (encode cs_alice ++ encode cs')
                     (fs_with cs_alice)) ∧
         files (create create_bob (fs_with cs_alice)).2 !! path
           ≠ Some (encode cs').
Proof.
  apply (create_on_existing_file_appends Join Dir encode decode "/home/u"
           create_bob (fs_with cs_alice) (encode cs_alice) cs_alice).
  - run.
  - vm_compute. discriminate.
  - run.
  - run.
Defined.

(** What C1's departure costs: after a second [Create] the config file no
    longer decodes. *)
Example second_create_breaks_the_file :
  stored (fs_with cs_alice) = Some cs_alice ∧
  (create create_bob (fs_with cs_alice)).1 = Ok () ∧
  stored (create create_bob (fs_with cs_alice)).2 = None.
Proof. repeat split; run. Qed.

(** alice created a second time. *)
Lemma create_existing_name_conflict_witness :
  create create_alice (fs_with cs_alice) =
    (Err (ErrAlreadyExists "alice"), fs_with cs_alice) ∧
  classify (ErrAlreadyExists "alice") = ConflictError.
Proof.
  apply (create_existing_name_conflict Join Dir encode decode "/home/u"
           create_alice (fs_with cs_alice) (encode cs_alice) cs_alice).
  - run.
  - run.
  - by eexists.
Defined.
(** A set emptied by [Delete] is not a fresh one: create alice on a fresh
    machine, delete alice, create bob without the use flag. The file is
    there and not empty; the set stored in it has no profile, but its map
    is allocated, so [Create] leaves [Current] at alice. *)
Lemma create_in_emptied_set_keeps_current :
  let fs1 := (create create_alice fs0).2 in
  let fs2 := (delete (mkDelete "alice") fs1).2 in
  let emptied := mkConfigSet "alice" (Some ∅) in
  stored fs2 = Some emptied ∧
  (∀ n, lookupConfig n emptied = None) ∧
  create_Use create_bob = false ∧
  ∃ cs', create_apply create_bob emptied = Ok cs' ∧
         create create_bob fs2 =
           (Ok (), with_file path (encode emptied ++ encode cs') fs2) ∧
         Current cs' = "alice" ∧
         Current cs' ≠ create_Name create_bob.
Proof.
  cbv zeta. split; [run|]. split; [done|]. split; [done|].
  exists (mkConfigSet "alice" (Some {["bob" := bob_cfg]})).
  split; [run|]. split; [run|]. split; [done|].
  vm_compute. discriminate.
Qed.

(** alice created without the use flag, on a fresh machine and where the
    config file is there and empty. *)
Lemma create_first_profile_becomes_current_witness :
  (files fs0 !! path = None ∧
   ∃ fs', create create_alice fs0 = (Ok (), fs') ∧
          files fs' !! path = Some ([] ++ encode cs_alice) ∧
          Current cs_alice = "alice") ∧
  (files (fs_with_bytes []) !! path = Some [] ∧
   ∃ fs', create create_alice (fs_with_bytes []) = (Ok (), fs') ∧
          files fs' !! path = Some ([] ++ encode cs_alice) ∧
          Current cs_alice = "alice").
Proof.
  split; (split; [run|]).
  - apply (create_first_profile_becomes_current Join Dir encode decode
             "/home/u" create_alice fs0).
    unfold starts_without_map. rewrite home_file.
    replace (files fs0 !! path) with (@None (list byte)) by run.
    intros _. exists zeroConfigSet. split; reflexivity.
  - apply (create_first_profile_becomes_current Join Dir encode decode
             "/home/u" create_alice (fs_with_bytes [])).
    unfold starts_without_map. rewrite home_file.
    replace (files (fs_with_bytes []) !! path) with (Some (@nil byte)) by run.
    exists zeroConfigSet. split; reflexivity.
Defined.

(** A new key for bob, next to alice. *)
Lemma update_key_only_witness :
  ∃ cs', update_apply
           (key_for "bob")
           cs_alice_bob = Ok cs' ∧
         update (key_for "bob")
           (fs_with cs_alice_bob) =
           (Ok (), with_file path (encode cs') (fs_with cs_alice_bob)) ∧
         Current cs' = "alice" ∧
         (∀ n', n' ≠ "bob" →
            lookupConfig n' cs' = lookupConfig n' cs_alice_bob) ∧
         lookupConfig "bob" cs' =
           Some (mkConfig (BaseURL bob_cfg) (FeedURL bob_cfg)
                   (Some (mkAuth "K9" "P2" "S2"))
                   (ServerIP bob_cfg) (ServerPort bob_cfg)
                   (ServerSecret bob_cfg)).
Proof.
  apply (update_key_only Join Dir encode decode "/home/u" "bob" "K9"
           (fs_with cs_alice_bob) (encode cs_alice_bob) cs_alice_bob
           bob_cfg (mkAuth "K2" "P2" "S2")).
  - run.
  - run.
  - run.
  - reflexivity.
  - discriminate.
Defined.

(** An update on a fresh machine, and one of bob where only alice is stored. *)
Lemma update_fails_without_file_or_profile_witness :
  (update (key_for "bob") fs0 =
     (Err (ErrConfigFileMissing path), fs0) ∧
   classify (ErrConfigFileMissing path) = NotFoundError) ∧
  (update (key_for "bob")
     (fs_with cs_alice) =
     (Err (ErrDoesNotExist "bob"), fs_with cs_alice) ∧
   classify (ErrDoesNotExist "bob") = ConflictError).
Proof.
  split.
  - apply (proj1 (update_fails_without_file_or_profile Join Dir encode
                    decode "/home/u" (key_for "bob") fs0)).
    run.
  - apply (proj2 (update_fails_without_file_or_profile Join Dir encode
                    decode "/home/u" (key_for "bob") (fs_with cs_alice))
             (encode cs_alice) cs_alice).
    + run.
    + run.
    + run.
Defined.

(** The scenario itself. *)
Lemma update_rename_use_witness :
  ∃ cs', update_apply
           bob_to_carol_use
           cs_alice_bob = Ok cs' ∧
         update bob_to_carol_use
           (fs_with cs_alice_bob) =
           (Ok (), with_file path (encode cs') (fs_with cs_alice_bob)) ∧
         Current cs' = "carol" ∧
         lookupConfig "carol" cs' = Some bob_cfg ∧
         lookupConfig "bob" cs' = None ∧
         lookupConfig "alice" cs' = Some alice_cfg ∧
         (∀ n, n ≠ "bob" → n ≠ "carol" →
            lookupConfig n cs' = lookupConfig n cs_alice_bob).
Proof.
  apply (update_rename_use Join Dir encode decode "/home/u"
           (fs_with cs_alice_bob) (encode cs_alice_bob) cs_alice_bob
           alice_cfg bob_cfg).
  - run.
  - run.
  - reflexivity.
  - run.
  - run.
Defined.

(** carol deleted where alice and bob are stored. *)
Lemma delete_absent_name_witness :
  delete (mkDelete "carol") (fs_with cs_alice_bob) =
    (Ok (), with_file path (encode cs_alice_bob) (fs_with cs_alice_bob)) ∧
  stored (delete (mkDelete "carol") (fs_with cs_alice_bob)).2
    = Some cs_alice_bob.
Proof.
  destruct (delete_absent_name Join Dir encode decode "/home/u"
              (mkDelete "carol") (fs_with cs_alice_bob)
              (encode cs_alice_bob) cs_alice_bob) as [Hrun _].
  - run.
  - run.
  - run.
  - split; [exact Hrun|run].
Defined.

(** alice, the current and only profile, deleted. *)
Lemma delete_keeps_current_witness :
  delete (mkDelete "alice") (fs_with cs_alice) =
    (Ok (), with_file path (encode (deleteConfig "alice" cs_alice))
              (fs_with cs_alice)) ∧
  Current (deleteConfig "alice" cs_alice) = "alice" ∧
  lookupConfig "alice" (deleteConfig "alice" cs_alice) = None ∧
  (∀ n, n ≠ "alice" →
     lookupConfig n (deleteConfig "alice" cs_alice) = lookupConfig n cs_alice).
Proof.
  apply (delete_keeps_current Join Dir encode decode "/home/u"
           (mkDelete "alice") (fs_with cs_alice) (encode cs_alice) cs_alice).
  - run.
  - run.
Defined.

(** A new key for a profile without [Auth], and for one with. *)
Lemma update_credentials_safe_iff_auth_witness :
  update (key_for "alice")
    (fs_with cs_bare) = (Panic, fs_with cs_bare) ∧
  ∃ cs', update_apply (key_for "alice")
           cs_alice = Ok cs' ∧
         update (key_for "alice")
           (fs_with cs_alice) =
           (Ok (), with_file path (encode cs') (fs_with cs_alice)).
Proof.
  split.
  - apply (update_credentials_safe_iff_auth Join Dir encode decode "/home/u"
             (key_for "alice")
             (fs_with cs_bare) (encode cs_bare) cs_bare bare_cfg).
    + run.
    + run.
    + run.
    + left. discriminate.
    + reflexivity.
  - apply (update_credentials_safe_iff_auth Join Dir encode decode "/home/u"
             (key_for "alice")
             (fs_with cs_alice) (encode cs_alice) cs_alice alice_cfg).
    + run.
    + run.
    + run.
    + left. discriminate.
    + by eexists.
Defined.

(** alice, the current profile, renamed to carol without the use flag. *)
Lemma update_without_use_keeps_current_witness :
  ∃ cs', update_apply
           alice_to_carol
           cs_alice_bob = Ok cs' ∧
         update alice_to_carol
           (fs_with cs_alice_bob) =
           (Ok (), with_file path (encode cs') (fs_with cs_alice_bob)) ∧
         Current cs' = "alice" ∧
         lookupConfig "alice" cs' = None ∧
         is_Some (lookupConfig "carol" cs').
Proof.
  destruct (update_without_use_keeps_current Join Dir encode decode
              "/home/u"
              alice_to_carol
              (fs_with cs_alice_bob) (encode cs_alice_bob) cs_alice_bob
              alice_cfg) as [Hok _].
  - run.
  - run.
  - run.
  - reflexivity.
  - destruct Hok as (cs' & Happ & Hrun & Hcur & Hren).
    + intros [_ Hnil]. discriminate Hnil.
    + exists cs'. split; [exact Happ|]. split; [exact Hrun|].
      split; [exact Hcur|].
      destruct Hren as (Hgone & Hnew & _); [discriminate..|].
      split; [exact Hgone|exact Hnew].
Defined.

End Witnesses.


(** * Further properties of the repository and the commands *)

Section Outcomes.

Variable path_Join : list string → string.
Variable path_Dir : string → string.
Variable encode : reticuleConfigSet → list byte.
Variable decode : list byte → option reticuleConfigSet.
Variable home : string.

Abbreviation p := (configFile path_Join home).
Abbreviation RunCreate :=
  (createReticuleConfigCmd_Run path_Join path_Dir (Some home) encode decode).
Abbreviation RunUpdate :=
  (updateReticuleConfigCmd_Run path_Join path_Dir (Some home) encode decode).
Abbreviation RunDelete :=
  (deleteReticuleConfigCmd_Run path_Join path_Dir (Some home) encode decode).

(** X1: [readConfigSet] only reads. Whatever it returns, the file system
    is as before; it returns the "config file does not exist" error for a
    missing file, the decoding error for a file that does not decode, and
    the decoded set otherwise. *)
Theorem readConfigSet_reads_only q fs :
  readConfigSet decode q fs =
    (match files fs !! q with
     | None => Err (ErrConfigFileMissing q)
     | Some b =>
         match decode b with
         | None => Err ErrYaml
         | Some cs => Ok cs
         end
     end, fs).
Proof.
  destruct (files fs !! q) as [b|] eqn:Hb.
  - destruct (decode b) as [cs|] eqn:Hd.
    + by apply readConfigSet_ok with b.
    + by apply readConfigSet_malformed with b.
  - by apply readConfigSet_missing.
Qed.

(** X2: [writeConfigSet] never creates the file. On an existing file it
    succeeds and the file then holds the encoding and nothing of its old
    content; on a missing file it fails with the file system's not-exist
    error and the file system is as before. *)
Theorem writeConfigSet_replaces_or_fails q cs fs :
  writeConfigSet path_Dir encode q cs fs =
    match files fs !! q with
    | Some _ => (Ok (), with_file q (encode cs) fs)
    | None => (Err (ErrNotExist q), fs)
    end.
Proof.
  destruct (files fs !! q) as [b|] eqn:Hb.
  - apply writeConfigSet_ok. by rewrite Hb.
  - by apply writeConfigSet_missing.
Qed.

(** X3: what [writeConfigSet] stores, [readConfigSet] loads: on an existing
    file and with a codec that reads the encoding of [cs] back, reading
    after writing returns [cs], whatever the file held before. *)
Theorem write_then_read q cs fs :
  is_Some (files fs !! q) → decode (encode cs) = Some cs →
  ∃ fs', writeConfigSet path_Dir encode q cs fs = (Ok (), fs') ∧
         readConfigSet decode q fs' = (Ok cs, fs').
Proof.
  intros Hq Hrt. eexists. split; [by apply writeConfigSet_ok|].
  apply readConfigSet_ok with (encode cs); [apply files_with_file|done].
Qed.

Lemma update_Run_malformed c fs b :
  files fs !! p = Some b → decode b = None →
  RunUpdate c fs = (Err ErrYaml, fs).
Proof.
  intros Hb Hd. unfold updateReticuleConfigCmd_Run. unfold_M.
  rewrite configPath_home. fold p.
  by rewrite (readConfigSet_malformed decode p fs b Hb Hd).
Qed.

Lemma delete_Run_malformed d fs b :
  files fs !! p = Some b → decode b = None →
  RunDelete d fs = (Err ErrYaml, fs).
Proof.
  intros Hb Hd. unfold deleteReticuleConfigCmd_Run. unfold_M.
  rewrite configPath_home. fold p.
  by rewrite (readConfigSet_malformed decode p fs b Hb Hd).
Qed.

(** X5: on a file system whose writes go through, [Delete] returns
    without error exactly when the config file is there and decodes,
    whether or not the name is in it. Without a config file it returns the
    "config file does not exist" error, a not-found error, and makes no
    file. *)
Theorem delete_succeeds_iff_loadable d fs :
  ((RunDelete d fs).1 = Ok () ↔
     ∃ b cs, files fs !! p = Some b ∧ decode b = Some cs) ∧
  (files fs !! p = None →
     deleteReticuleConfigCmd_Run path_Join path_Dir (Some home) encode decode
       d fs = (Err (ErrConfigFileMissing p), fs) ∧
     classify (ErrConfigFileMissing p) = NotFoundError).
Proof.
  split.
  - destruct (files fs !! p) as [b|] eqn:Hb.
    + destruct (decode b) as [cs|] eqn:Hd.
      * rewrite (delete_Run_loaded _ _ _ _ _ d fs b cs Hb Hd). cbn.
        split; [|done]. intros _. by exists b, cs.
      * rewrite (delete_Run_malformed d fs b Hb Hd). cbn.
        split; [done|]. intros (b' & cs & [= <-] & Hd'). congruence.
    + rewrite (delete_Run_missing _ _ _ _ _ d fs Hb). cbn.
      split; [done|]. by intros (b' & cs & [=] & _).
  - intros Hb. split; [|done]. by apply delete_Run_missing.
Qed.

Lemma create_Run_malformed c fs b :
  files fs !! p = Some b → decode b = None →
  RunCreate c fs = (Err ErrYaml, fs).
Proof.
  intros Hb Hd.
  unfold createReticuleConfigCmd_Run, create_open, OpenFile, ReadAll,
    yaml_Unmarshal.
  unfold_M. rewrite configPath_home. fold p.
  rewrite Hb. cbn. rewrite Hb. cbn. by rewrite drop_0, Hd.
Qed.

(** X4: a config file that does not decode stops every command before it
    writes: [Create], [Update] and [Delete] all return the decoding error,
    a format error, and the file system is as before. *)
Theorem undecodable_file_stops_every_command c u d fs b :
  files fs !! p = Some b → decode b = None →
  createReticuleConfigCmd_Run path_Join path_Dir (Some home) encode decode
    c fs = (Err ErrYaml, fs) ∧
  updateReticuleConfigCmd_Run path_Join path_Dir (Some home) encode decode
    u fs = (Err ErrYaml, fs) ∧
  deleteReticuleConfigCmd_Run path_Join path_Dir (Some home) encode decode
    d fs = (Err ErrYaml, fs) ∧
  classify ErrYaml = FormatError.
Proof.
  intros Hb Hd. split; [by apply create_Run_malformed with b|].
  split; [by apply update_Run_malformed with b|].
  split; [by apply delete_Run_malformed with b|done].
Qed.

(** Without the file but with its directory, [OpenFile] has made the empty
    file by the time decoding or the name check fails. *)
Lemma create_Run_created_malformed c fs :
  files fs !! p = None → path_Dir p ∈ dirs fs → decode [] = None →
  RunCreate c fs = (Err ErrYaml, with_file p [] fs).
Proof.
  intros Hb Hdir Hd.
  unfold createReticuleConfigCmd_Run, create_open, OpenFile, ReadAll,
    yaml_Unmarshal.
  unfold_M. rewrite configPath_home. fold p. rewrite Hb.
  rewrite decide_True by done. cbn. rewrite lookup_insert_eq. cbn.
  by rewrite Hd.
Qed.

Lemma create_Run_created_conflict c fs cs :
  files fs !! p = None → path_Dir p ∈ dirs fs → decode [] = Some cs →
  is_Some (lookupConfig (create_Name c) cs) →
  RunCreate c fs = (Err (ErrAlreadyExists (create_Name c)), with_file p [] fs).
Proof.
  intros Hb Hdir Hd [cfg Hn].
  unfold createReticuleConfigCmd_Run, create_open, OpenFile, ReadAll,
    yaml_Unmarshal.
  unfold_M. rewrite configPath_home. fold p. rewrite Hb.
  rewrite decide_True by done. cbn. rewrite lookup_insert_eq. cbn.
  rewrite Hd. cbn. by rewrite Hn.
Qed.

(** Every way [Create] can end. *)
Lemma create_Run_cases c fs :
  (∃ x, RunCreate c fs = (Ok (), with_file p x fs)) ∨
  (files fs !! p = None ∧
   ∃ x, RunCreate c fs =
          (Ok (), mkFs ({[path_Dir p]} ∪ dirs fs) (<[p := x]> (files fs)))) ∨
  (∃ e, (e = ErrYaml ∨ e = ErrAlreadyExists (create_Name c)) ∧
        (RunCreate c fs = (Err e, fs) ∨
         files fs !! p = None ∧ RunCreate c fs = (Err e, with_file p [] fs))).
Proof.
  destruct (files fs !! p) as [b|] eqn:Hb.
  - destruct (decode b) as [cs|] eqn:Hd.
    + destruct (lookupConfig (create_Name c) cs) as [cfg|] eqn:Hn.
      * right; right. eexists. split; [by right|]. left.
        by apply (create_Run_conflict _ _ _ _ _ c fs b cs).
      * left. destruct (create_apply_total c cs) as [cs' Ha]. eexists.
        by apply (create_Run_existing _ _ _ _ _ c fs b cs cs').
    + right; right. eexists. split; [by left|]. left.
      by apply create_Run_malformed with b.
  - destruct (decide (path_Dir p ∈ dirs fs)) as [Hdir|Hdir].
    + destruct (decode []) as [cs|] eqn:Hd.
      * destruct (lookupConfig (create_Name c) cs) as [cfg|] eqn:Hn.
        -- right; right. eexists. split; [by right|]. right. split; [done|].
           by apply create_Run_created_conflict with cs.
        -- left. destruct (create_apply_total c cs) as [cs' Ha]. eexists.
           by apply (create_Run_missing_file _ _ _ _ _ c fs cs cs').
      * right; right. eexists. split; [by left|]. right. split; [done|].
        by apply create_Run_created_malformed.
    + right; left. split; [done|].
      destruct (create_apply_total c zeroConfigSet) as [cs' Ha]. eexists.
      by apply (create_Run_missing_dir _ _ _ _ _ c fs cs').
Qed.

(** X6: [Create] and [Delete] never panic: [Create] allocates the map
    before it assigns to it, and [Delete] only deletes, which a nil map
    allows. *)
Theorem create_and_delete_never_panic c d fs :
  (createReticuleConfigCmd_Run path_Join path_Dir (Some home) encode decode
     c fs).1 ≠ Panic ∧
  (deleteReticuleConfigCmd_Run path_Join path_Dir (Some home) encode decode
     d fs).1 ≠ Panic.
Proof.
  split.
  - destruct (create_Run_cases c fs)
      as [[x ->]|[[_ [x ->]]|(e & _ & [->|[_ ->]])]]; done.
  - destruct (files fs !! p) as [b|] eqn:Hb.
    + destruct (decode b) as [cs|] eqn:Hd.
      * by rewrite (delete_Run_loaded _ _ _ _ _ d fs b cs Hb Hd).
      * by rewrite (delete_Run_malformed d fs b Hb Hd).
    + by rewrite (delete_Run_missing _ _ _ _ _ d fs Hb).
Qed.

(** X7: [Update] panics only in one situation: the file decodes, the
    profile is there, its [Auth] is nil and a credential is supplied. In
    particular it never assigns into a nil map. *)
Theorem update_panics_only_on_nil_auth c fs :
  (RunUpdate c fs).1 = Panic →
  ∃ b cs cfg, files fs !! p = Some b ∧ decode b = Some cs ∧
              lookupConfig (update_Name c) cs = Some cfg ∧
              cfgAuth cfg = None ∧ supplies_credential c.
Proof.
  destruct (files fs !! p) as [b|] eqn:Hb.
  - destruct (decode b) as [cs|] eqn:Hd.
    + rewrite (update_Run_loaded _ _ _ _ _ c fs b cs Hb Hd).
      destruct (lookupConfig (update_Name c) cs) as [cfg|] eqn:Hcfg.
      * intros Hpanic. exists b, cs, cfg. do 3 (split; [done|]).
        destruct (cfgAuth cfg) as [a|] eqn:Ha.
        -- exfalso. destruct cs as [cur [m|]]; [|done].
           pose proof (update_credentials_Some c (update_urls c cfg) a) as Hc.
           rewrite cfgAuth_update_urls in Hc. specialize (Hc Ha).
           by rewrite (update_apply_ok c (mkConfigSet cur (Some m)) m cfg _
                         eq_refl Hcfg Hc) in Hpanic.
        -- split; [done|].
           destruct (decide (update_Key c = "")) as [Hk|Hk]; [|by left].
           destruct (decide (update_Passphrase c = "")) as [Hp|Hp];
             [|by right; left].
           destruct (decide (update_Secret c = "")) as [Hs|Hs];
             [|by right; right].
           exfalso. destruct cs as [cur [m|]]; [|done].
           assert (update_credentials c (update_urls c cfg)
                   = Ok (update_urls c cfg)) as Hc.
           { apply update_credentials_none_supplied. intros [?|[?|?]]; done. }
           by rewrite (update_apply_ok c (mkConfigSet cur (Some m)) m cfg _
                         eq_refl Hcfg Hc) in Hpanic.
      * by rewrite update_apply_absent.
    + by rewrite (update_Run_malformed c fs b Hb Hd).
  - by rewrite (update_Run_missing _ _ _ _ _ c fs Hb).
Qed.


(** X9: [Update] and [Delete] create nothing: after them the same
    directories and the same files exist as before, whatever they
    return. *)
Theorem update_and_delete_create_nothing u d fs :
  (dirs (updateReticuleConfigCmd_Run path_Join path_Dir (Some home) encode
           decode u fs).2 = dirs fs ∧
   dom (files (RunUpdate u fs).2) = dom (files fs)) ∧
  (dirs (deleteReticuleConfigCmd_Run path_Join path_Dir (Some home) encode
           decode d fs).2 = dirs fs ∧
   dom (files (RunDelete d fs).2) = dom (files fs)).
Proof.
  assert (∀ b x, files fs !! p = Some b →
            dom (<[p:=x]> (files fs)) = dom (files fs)) as Hdom.
  { intros b x Hb. rewrite dom_insert_L.
    assert (p ∈ dom (files fs)) as Hin by (apply elem_of_dom; by rewrite Hb).
    apply set_eq. intros q. rewrite elem_of_union, elem_of_singleton.
    split; [by intros [->|?]|by right]. }
  split.
  - destruct (files fs !! p) as [b|] eqn:Hb.
    + destruct (decode b) as [cs|] eqn:Hd.
      * rewrite (update_Run_loaded _ _ _ _ _ u fs b cs Hb Hd).
        destruct (update_apply u cs); cbn; [|done..].
        split; [done|]. by apply Hdom with b.
      * by rewrite (update_Run_malformed u fs b Hb Hd).
    + by rewrite (update_Run_missing _ _ _ _ _ u fs Hb).
  - destruct (files fs !! p) as [b|] eqn:Hb.
    + destruct (decode b) as [cs|] eqn:Hd.
      * rewrite (delete_Run_loaded _ _ _ _ _ d fs b cs Hb Hd). cbn.
        split; [done|]. by apply Hdom with b.
      * by rewrite (delete_Run_malformed d fs b Hb Hd).
    + by rewrite (delete_Run_missing _ _ _ _ _ d fs Hb).
Qed.

End Outcomes.

Section Changes.

Variable path_Join : list string → string.
Variable path_Dir : string → string.
Variable encode : reticuleConfigSet → list byte.
Variable decode : list byte → option reticuleConfigSet.
Variable home : string.

Abbreviation p := (configFile path_Join home).
Abbreviation RunCreate :=
  (createReticuleConfigCmd_Run path_Join path_Dir (Some home) encode decode).
Abbreviation RunUpdate :=
  (updateReticuleConfigCmd_Run path_Join path_Dir (Some home) encode decode).
Abbreviation RunDelete :=
  (deleteReticuleConfigCmd_Run path_Join path_Dir (Some home) encode decode).

(** X11: [Create] with a new name in a stored set that has a map succeeds,
    and the set it encodes has exactly one profile more: the new one under
    its name, every other profile as it was. [Current] becomes the new name
    with the use flag and stays as it was without. *)
Theorem create_adds_one_profile c fs b cur m :
  files fs !! p = Some b → decode b = Some (mkConfigSet cur (Some m)) →
  m !! create_Name c = None →
  ∃ cs' m', create_apply c (mkConfigSet cur (Some m)) = Ok cs' ∧
            RunCreate c fs = (Ok (), with_file p (b ++ encode cs') fs) ∧
            Configs cs' = Some m' ∧
            size m' = S (size m) ∧
            m' !! create_Name c = Some (create_cfg c) ∧
            (∀ n, n ≠ create_Name c → m' !! n = m !! n) ∧
            Current cs' = if create_Use c then create_Name c else cur.
Proof.
  intros Hb Hd Hn.
  pose proof (create_apply_map c (mkConfigSet cur (Some m)) m eq_refl) as Ha.
  eexists _, _. split; [exact Ha|]. split.
  { by apply (create_Run_existing _ _ _ _ _ c fs b _ _ Hb Hd). }
  split; [done|]. split; [by apply map_size_insert_None|].
  split; [apply lookup_insert_eq|]. split; [|done].
  intros n Hne. by apply lookup_insert_ne.
Qed.


(** X13: an [Update] that supplies nothing but the name of an existing
    profile changes nothing: it succeeds and rewrites the file with the
    encoding of the set as loaded. It does so for a profile with a nil
    [Auth] too, since the pointer is not followed. *)
Theorem update_with_nothing_supplied n fs b cs :
  files fs !! p = Some b → decode b = Some cs →
  is_Some (lookupConfig n cs) →
  RunUpdate (mkUpdate n None None "" "" "" "" false 0 "" "") fs =
    (Ok (), with_file p (encode cs) fs).
Proof.
  intros Hb Hd [cfg Hcfg].
  destruct cs as [cur [m|]]; [|done].
  unfold lookupConfig in Hcfg; cbn in Hcfg.
  set (c := mkUpdate n None None "" "" "" "" false 0 "" "").
  assert (update_credentials c (update_urls c cfg) = Ok cfg) as Hcred
    by (apply update_credentials_none_supplied; intros [H|[H|H]]; done).
  rewrite (update_Run_loaded _ _ _ _ _ c fs b _ Hb Hd).
  rewrite (update_apply_ok c (mkConfigSet cur (Some m)) m cfg _
             eq_refl Hcfg Hcred).
  unfold update_target; cbn. rewrite !decide_True by done.
  replace (update_server c cfg) with cfg
    by (destruct cfg; unfold update_server; cbn;
        by rewrite !decide_True by done).
  by rewrite insert_id.
Qed.

(** X14: a rename onto the name of another profile replaces that profile
    without any check: the renamed profile is stored under the new name,
    what was there is lost, and the set has one profile less. (Here only
    the rename, and possibly the use flag, is supplied.) *)
Theorem rename_onto_existing_name_overwrites n r use fs b cur m cfg other :
  files fs !! p = Some b → decode b = Some (mkConfigSet cur (Some m)) →
  m !! n = Some cfg → m !! r = Some other → r ≠ "" → r ≠ n →
  ∃ cs' m',
    RunUpdate (mkUpdate n None None "" "" r "" use 0 "" "") fs =
      (Ok (), with_file p (encode cs') fs) ∧
    Configs cs' = Some m' ∧
    m' !! r = Some cfg ∧ m' !! n = None ∧
    size m' = pred (size m) ∧
    (∀ n', n' ≠ n → n' ≠ r → m' !! n' = m !! n').
Proof.
  intros Hb Hd Hcfg Hother Hr Hrn.
  set (c := mkUpdate n None None "" "" r "" use 0 "" "").
  assert (update_credentials c (update_urls c cfg) = Ok cfg) as Hcred
    by (apply update_credentials_none_supplied; intros [H|[H|H]]; done).
  pose proof (update_apply_ok c (mkConfigSet cur (Some m)) m cfg _
                eq_refl Hcfg Hcred) as Happ.
  eexists _, _. split.
  { by rewrite (update_Run_loaded _ _ _ _ _ c fs b _ Hb Hd), Happ. }
  split; [done|]. unfold update_target; cbn.
  rewrite !decide_False by done.
  replace (update_server c cfg) with cfg
    by (destruct cfg; unfold update_server; cbn;
        by rewrite !decide_True by done).
  split; [apply lookup_insert_eq|]. split.
  { rewrite lookup_insert_ne by done. apply lookup_delete_eq. }
  split.
  { rewrite map_size_insert_Some.
    - apply map_size_delete_Some. by rewrite Hcfg.
    - rewrite lookup_delete_ne by done. by rewrite Hother. }
  intros n' Hn1 Hn2. rewrite lookup_insert_ne by done.
  by rewrite lookup_delete_ne.
Qed.

(** X15: renaming a profile to the name it has is the same as not
    renaming: the two commands end alike on every file system. *)
Theorem rename_to_own_name_is_no_rename
    n bu fu k pw s use port ip auth fs :
  updateReticuleConfigCmd_Run path_Join path_Dir (Some home) encode decode
    (mkUpdate n bu fu k pw n s use port ip auth) fs =
  updateReticuleConfigCmd_Run path_Join path_Dir (Some home) encode decode
    (mkUpdate n bu fu k pw "" s use port ip auth) fs.
Proof.
  set (c1 := mkUpdate n bu fu k pw n s use port ip auth).
  set (c2 := mkUpdate n bu fu k pw "" s use port ip auth).
  assert (∀ cs, update_apply c1 cs = update_apply c2 cs) as Happ.
  { intros cs. unfold update_apply. cbn.
    destruct (lookupConfig n cs) as [cfg|] eqn:Hcfg; [|done].
    change (update_credentials c1 (update_urls c1 cfg))
      with (update_credentials c2 (update_urls c2 cfg)).
    destruct (update_credentials c2 (update_urls c2 cfg)) as [cfg1| |];
      [|done..].
    cbn. rewrite (decide_True (P := "" = "")) by done.
    destruct (decide (n = "")) as [->|Hn]; [done|].
    change (update_server c1 cfg1) with (update_server c2 cfg1).
    destruct cs as [cur [m|]]; [|done].
    destruct use; cbn; by rewrite insert_delete_eq. }
  destruct (files fs !! p) as [b|] eqn:Hb.
  - destruct (decode b) as [cs|] eqn:Hd.
    + by rewrite !(update_Run_loaded _ _ _ _ _ _ fs b cs Hb Hd), Happ.
    + by rewrite !(update_Run_malformed _ _ _ _ _ _ fs b Hb Hd).
  - by rewrite !(update_Run_missing _ _ _ _ _ _ fs Hb).
Qed.

(** X16: [Delete] is idempotent: with a codec that reads back the set the
    first [Delete] wrote, a second [Delete] of the same name succeeds and
    leaves the file system as the first one left it. *)
Theorem delete_twice d fs b cs :
  files fs !! p = Some b → decode b = Some cs →
  decode (encode (deleteConfig (delete_Name d) cs))
    = Some (deleteConfig (delete_Name d) cs) →
  RunDelete d (RunDelete d fs).2 = RunDelete d fs.
Proof.
  intros Hb Hd Hrt.
  rewrite (delete_Run_loaded _ _ _ _ _ d fs b cs Hb Hd). cbn [snd].
  rewrite (delete_Run_loaded _ _ _ _ _ d _ _ _ (files_with_file _ _ _) Hrt).
  rewrite with_file_with_file. do 3 f_equal.
  apply deleteConfig_absent.
  by rewrite lookupConfig_deleteConfig, decide_True.
Qed.

(** Without a config file, and with a codec for which the empty file holds
    no map, [Create] succeeds and the file holds the encoding of the set
    made of the new profile. *)
Lemma create_Run_fresh c fs :
  files fs !! p = None →
  (path_Dir p ∈ dirs fs → ∃ cs, decode [] = Some cs ∧ Configs cs = None) →
  ∃ fs', RunCreate c fs = (Ok (), fs') ∧
         files fs' !! p =
           Some (encode {| Current := create_Name c;
                           Configs := Some {[create_Name c := create_cfg c]} |}).
Proof.
  intros Hb Hempty.
  set (cs' := {| Current := create_Name c;
                 Configs := Some {[create_Name c := create_cfg c]} |}).
  destruct (decide (path_Dir p ∈ dirs fs)) as [Hdir|Hdir].
  - destruct (Hempty Hdir) as (cs & Hd & Hnil). eexists. split.
    + apply (create_Run_missing_file _ _ _ _ _ c fs cs cs' Hb Hdir Hd);
        [by unfold lookupConfig; rewrite Hnil|by apply create_apply_nil].
    + apply files_with_file.
  - eexists. split.
    + apply (create_Run_missing_dir _ _ _ _ _ c fs cs' Hb Hdir).
      by apply create_apply_nil.
    + cbn. apply lookup_insert_eq.
Qed.

(** X17: what the first [Create] stores, [readConfigSet] loads: without a
    config file before, and with a codec that reads the encoding back,
    the stored set has the new profile as its only one and as [Current]. *)
Theorem create_then_read c fs :
  let cs' := {| Current := create_Name c;
                Configs := Some {[create_Name c := create_cfg c]} |} in
  files fs !! p = None →
  (path_Dir p ∈ dirs fs → ∃ cs, decode [] = Some cs ∧ Configs cs = None) →
  decode (encode cs') = Some cs' →
  (RunCreate c fs).1 = Ok () ∧
  readConfigSet decode p (RunCreate c fs).2 = (Ok cs', (RunCreate c fs).2).
Proof.
  intros cs' Hb Hempty Hrt.
  destruct (create_Run_fresh c fs Hb Hempty) as (fs' & -> & Hfile).
  split; [done|]. cbn [snd]. by apply readConfigSet_ok with (encode cs').
Qed.

(** X18: [Delete] does not undo the first [Create]: after creating a
    profile where there was no config file and deleting it again, the file
    is still there and stores a set with no profile whose [Current] is the
    deleted name and whose map is allocated, not nil. *)
Theorem create_then_delete c fs :
  let cs' := {| Current := create_Name c;
                Configs := Some {[create_Name c := create_cfg c]} |} in
  let emptied := {| Current := create_Name c; Configs := Some ∅ |} in
  files fs !! p = None →
  (path_Dir p ∈ dirs fs → ∃ cs, decode [] = Some cs ∧ Configs cs = None) →
  decode (encode cs') = Some cs' →
  RunDelete (mkDelete (create_Name c)) (RunCreate c fs).2 =
    (Ok (), with_file p (encode emptied) (RunCreate c fs).2).
Proof.
  intros cs' emptied Hb Hempty Hrt.
  destruct (create_Run_fresh c fs Hb Hempty) as (fs' & -> & Hfile).
  cbn [snd].
  rewrite (delete_Run_loaded _ _ _ _ _ _ fs' _ cs' Hfile Hrt).
  do 3 f_equal. unfold deleteConfig, emptied; cbn.
  by rewrite delete_singleton_eq.
Qed.

(** X19: a deleted profile cannot be updated: after [Delete] of a name,
    with a codec that reads back what [Delete] wrote, [Update] of that
    name fails with the "does not exist" error and writes nothing. *)
Theorem delete_then_update d c fs b cs :
  files fs !! p = Some b → decode b = Some cs →
  decode (encode (deleteConfig (delete_Name d) cs))
    = Some (deleteConfig (delete_Name d) cs) →
  update_Name c = delete_Name d →
  RunUpdate c (RunDelete d fs).2 =
    (Err (ErrDoesNotExist (delete_Name d)), (RunDelete d fs).2).
Proof.
  intros Hb Hd Hrt Hname.
  rewrite (delete_Run_loaded _ _ _ _ _ d fs b cs Hb Hd). cbn [snd].
  rewrite (update_Run_loaded _ _ _ _ _ c _ _ _ (files_with_file _ _ _) Hrt).
  rewrite update_apply_absent, Hname; [done|].
  by rewrite Hname, lookupConfig_deleteConfig, decide_True.
Qed.

End Changes.

(** * The further properties on concrete files *)

Section MoreWitnesses.

Import TestEnv.

Local Ltac run := vm_compute; reflexivity.

(** alice and bob written over the file that holds alice, and read back. *)
Lemma write_then_read_witness :
  ∃ fs', writeConfigSet Dir encode path cs_alice_bob (fs_with cs_alice)
           = (Ok (), fs') ∧
         readConfigSet decode path fs' = (Ok cs_alice_bob, fs').
Proof.
  apply (write_then_read Dir encode decode path cs_alice_bob
           (fs_with cs_alice)).
  - exists (encode cs_alice). run.
  - run.
Defined.

(** A config file that holds one byte and no document. *)
Lemma undecodable_file_stops_every_command_witness :
  create create_bob (fs_with_bytes ["001"%byte])
    = (Err ErrYaml, fs_with_bytes ["001"%byte]) ∧
  update (key_for "bob") (fs_with_bytes ["001"%byte])
    = (Err ErrYaml, fs_with_bytes ["001"%byte]) ∧
  delete (mkDelete "bob") (fs_with_bytes ["001"%byte])
    = (Err ErrYaml, fs_with_bytes ["001"%byte]) ∧
  classify ErrYaml = FormatError.
Proof.
  apply (undecodable_file_stops_every_command Join Dir encode decode
           "/home/u" create_bob (key_for "bob") (mkDelete "bob")
           (fs_with_bytes ["001"%byte]) ["001"%byte]).
  - run.
  - run.
Defined.

(** alice deleted where she is stored, and on a fresh machine. *)
Lemma delete_succeeds_iff_loadable_witness :
  (delete (mkDelete "alice") (fs_with cs_alice)).1 = Ok () ∧
  delete (mkDelete "alice") fs0 = (Err (ErrConfigFileMissing path), fs0) ∧
  classify (ErrConfigFileMissing path) = NotFoundError.
Proof.
  split.
  - apply (proj1 (delete_succeeds_iff_loadable Join Dir encode decode
                    "/home/u" (mkDelete "alice") (fs_with cs_alice))).
    exists (encode cs_alice), cs_alice. split; run.
  - apply (proj2 (delete_succeeds_iff_loadable Join Dir encode decode
                    "/home/u" (mkDelete "alice") fs0)).
    run.
Defined.

(** A new key for a profile without [Auth]. *)
Lemma update_panics_only_on_nil_auth_witness :
  (update (key_for "alice") (fs_with cs_bare)).1 = Panic ∧
  ∃ b cs cfg, files (fs_with cs_bare) !! path = Some b ∧
              decode b = Some cs ∧
              lookupConfig "alice" cs = Some cfg ∧
              cfgAuth cfg = None ∧ supplies_credential (key_for "alice").
Proof.
  split; [run|].
  apply (update_panics_only_on_nil_auth Join Dir encode decode "/home/u"
           (key_for "alice") (fs_with cs_bare)).
  run.
Defined.


(** bob created next to alice. *)
Lemma create_adds_one_profile_witness :
  ∃ cs' m', create_apply create_bob cs_alice = Ok cs' ∧
            Configs cs' = Some m' ∧ size m' = 2 ∧
            m' !! "bob" = Some bob_cfg ∧ m' !! "alice" = Some alice_cfg ∧
            Current cs' = "alice".
Proof.
  destruct (create_adds_one_profile Join Dir encode decode "/home/u"
              create_bob (fs_with cs_alice) (encode cs_alice) "alice"
              {["alice" := alice_cfg]})
    as (cs' & m' & Happ & _ & Hm' & Hsize & Hnew & Hold & Hcur).
  - run.
  - run.
  - run.
  - exists cs', m'. split; [exact Happ|]. split; [exact Hm'|].
    split; [exact Hsize|]. split; [exact Hnew|].
    split; [|exact Hcur].
    rewrite (Hold "alice"); [run|discriminate].
Defined.


(** An update of the profile without [Auth] that supplies nothing. *)
Lemma update_with_nothing_supplied_witness :
  update (mkUpdate "alice" None None "" "" "" "" false 0 "" "")
    (fs_with cs_bare) =
    (Ok (), with_file path (encode cs_bare) (fs_with cs_bare)).
Proof.
  apply (update_with_nothing_supplied Join Dir encode decode "/home/u"
           "alice" (fs_with cs_bare) (encode cs_bare) cs_bare).
  - run.
  - run.
  - exists bare_cfg. run.
Defined.

(** bob renamed to alice, where both are stored. *)
Lemma rename_onto_existing_name_overwrites_witness :
  ∃ cs' m',
    update (mkUpdate "bob" None None "" "" "alice" "" false 0 "" "")
      (fs_with cs_alice_bob) =
      (Ok (), with_file path (encode cs') (fs_with cs_alice_bob)) ∧
    Configs cs' = Some m' ∧
    m' !! "alice" = Some bob_cfg ∧ m' !! "bob" = None ∧ size m' = 1.
Proof.
  destruct (rename_onto_existing_name_overwrites Join Dir encode decode
              "/home/u" "bob" "alice" false (fs_with cs_alice_bob)
              (encode cs_alice_bob) "alice"
              (<["bob" := bob_cfg]> {["alice" := alice_cfg]})
              bob_cfg alice_cfg)
    as (cs' & m' & Hrun & Hm' & Hnew & Hgone & Hsize & _).
  - run.
  - run.
  - run.
  - run.
  - discriminate.
  - discriminate.
  - exists cs', m'. split; [exact Hrun|]. split; [exact Hm'|].
    split; [exact Hnew|]. split; [exact Hgone|].
    rewrite Hsize. run.
Defined.

(** alice deleted twice. *)
Lemma delete_twice_witness :
  delete (mkDelete "alice") (delete (mkDelete "alice") (fs_with cs_alice)).2
    = delete (mkDelete "alice") (fs_with cs_alice).
Proof.
  apply (delete_twice Join Dir encode decode "/home/u" (mkDelete "alice")
           (fs_with cs_alice) (encode cs_alice) cs_alice).
  - run.
  - run.
  - run.
Defined.

(** alice created on a fresh machine and read back. *)
Lemma create_then_read_witness :
  (create create_alice fs0).1 = Ok () ∧
  readConfigSet decode path (create create_alice fs0).2
    = (Ok cs_alice, (create create_alice fs0).2).
Proof.
  apply (create_then_read Join Dir encode decode "/home/u" create_alice fs0).
  - run.
  - intros _. exists zeroConfigSet. split; reflexivity.
  - run.
Defined.

(** alice created on a fresh machine and deleted again. *)
Lemma create_then_delete_witness :
  delete (mkDelete "alice") (create create_alice fs0).2 =
    (Ok (), with_file path (encode (mkConfigSet "alice" (Some ∅)))
              (create create_alice fs0).2).
Proof.
  apply (create_then_delete Join Dir encode decode "/home/u" create_alice fs0).
  - run.
  - intros _. exists zeroConfigSet. split; reflexivity.
  - run.
Defined.

(** bob deleted, then given a new key. *)
Lemma delete_then_update_witness :
  update (key_for "bob") (delete (mkDelete "bob") (fs_with cs_alice_bob)).2 =
    (Err (ErrDoesNotExist "bob"),
     (delete (mkDelete "bob") (fs_with cs_alice_bob)).2).
Proof.
  apply (delete_then_update Join Dir encode decode "/home/u" (mkDelete "bob")
           (key_for "bob") (fs_with cs_alice_bob) (encode cs_alice_bob)
           cs_alice_bob).
  - run.
  - run.
  - run.
  - reflexivity.
Defined.

End MoreWitnesses.
